(** * A shallow embedding of the address book (address_book.py)

    The development follows the Python source class by class: [Field],
    [Name], [Phone], [Birthday], [Record] and [AddressBook].  Python
    strings are sequences of Unicode code points, Python integers are
    unbounded, exceptions abort a call and leave the receiver in the
    state it had when they were raised. *)

From Stdlib Require Import ZArith NArith List String Ascii Bool Lia.
Import ListNotations.

Set Implicit Arguments.

(* ================================================================== *)
(** * Python values: strings, exceptions, stateful calls               *)
(* ================================================================== *)

Module Py.

(** A [str] is a sequence of code points. *)
Definition str := list N.

(** ASCII literals of the source, as code points. *)
Definition lit (s : string) : str :=
  map N_of_ascii (list_ascii_of_string s).

Fixpoint str_eqb (a b : str) : bool :=
  match a, b with
  | [], [] => true
  | x :: a', y :: b' => N.eqb x y && str_eqb a' b'
  | _, _ => false
  end.

Definition len (s : str) : Z := Z.of_nat (List.length s).

(** The exceptions the program can meet. *)
Inductive exn :=
| ValueError (msg : string)
| OverflowError (msg : string).

Inductive result (A : Type) :=
| Ok (a : A)
| Raise (e : exn).
Arguments Ok {A} a.
Arguments Raise {A} e.

Definition rbind {A B} (r : result A) (k : A -> result B) : result B :=
  match r with
  | Ok a => k a
  | Raise e => Raise e
  end.

(** A method call on a receiver of type [S]: it returns or raises, and
    hands back the receiver as the call left it. *)
Definition M (S A : Type) := S -> result A * S.

Definition ret {S A} (a : A) : M S A := fun s => (Ok a, s).
Definition raise {S A} (e : exn) : M S A := fun s => (Raise e, s).
Definition bind {S A B} (m : M S A) (k : A -> M S B) : M S B :=
  fun s => match m s with
           | (Ok a, s') => k a s'
           | (Raise e, s') => (Raise e, s')
           end.
Definition get {S} : M S S := fun s => (Ok s, s).
Definition put {S} (s' : S) : M S unit := fun _ => (Ok tt, s').
Definition gets {S A} (f : S -> A) : M S A := fun s => (Ok (f s), s).
(** An expression that may raise, evaluated inside a method. *)
Definition eval {S A} (r : result A) : M S A := fun s => (r, s).

(** ** The Unicode tables behind [str.isdigit], [\d] and [int]

    The tables are those of Unicode 14.0.  Code points of category Nd
    come in runs of ten, one run per script, digit value 0 first;
    [decimal_zeros] lists the first code
    point of each run.  [digit_only] lists the ranges that have the
    digit property without being decimal (superscripts, circled
    digits and the like). *)
Definition decimal_zeros : list N :=
  [48; 1632; 1776; 1984; 2406; 2534; 2662; 2790; 2918; 3046; 3174;
   3302; 3430; 3558; 3664; 3792; 3872; 4160; 4240; 6112; 6160; 6470;
   6608; 6784; 6800; 6992; 7088; 7232; 7248; 42528; 43216; 43264;
   43472; 43504; 43600; 44016; 65296; 66720; 68912; 69734; 69872;
   69942; 70096; 70384; 70736; 70864; 71248; 71360; 71472; 71904;
   72016; 72784; 73040; 73120; 92768; 92864; 93008; 120782; 120792;
   120802; 120812; 120822; 123200; 123632; 125264; 130032]%N.

Definition digit_only : list (N * N) :=
  [(178, 179); (185, 185); (4969, 4977); (6618, 6618); (8304, 8304);
   (8308, 8313); (8320, 8329); (9312, 9320); (9332, 9340);
   (9352, 9360); (9450, 9450); (9461, 9469); (9471, 9471);
   (10102, 10110); (10112, 10120); (10122, 10130); (68160, 68163);
   (69216, 69224); (69714, 69722); (127232, 127242)]%N.

Definition in_range (lo hi c : N) : bool := N.leb lo c && N.leb c hi.

(** The decimal value of a code point, when it has one. *)
Fixpoint decimal_in (zeros : list N) (c : N) : option Z :=
  match zeros with
  | [] => None
  | z :: zs =>
      if in_range z (z + 9) c then Some (Z.of_N (c - z))
      else decimal_in zs c
  end.

Definition decimal_value (c : N) : option Z := decimal_in decimal_zeros c.

Definition chr_isdecimal (c : N) : bool :=
  match decimal_value c with Some _ => true | None => false end.

Definition chr_isdigit (c : N) : bool :=
  chr_isdecimal c || existsb (fun r => in_range (fst r) (snd r) c) digit_only.

(** [s.isdigit()]: every character is a digit and there is at least one. *)
Definition isdigit (s : str) : bool :=
  negb (str_eqb s []) && forallb chr_isdigit s.

(** ** [int(s)] on the texts [_strptime] hands to it *)

Definition space : N := 32%N.

Fixpoint lstrip (s : str) : str :=
  match s with
  | c :: s' => if N.eqb c space then lstrip s' else s
  | [] => []
  end.

Definition strip (s : str) : str := rev (lstrip (rev (lstrip s))).

Fixpoint digits_value (acc : Z) (s : str) : option Z :=
  match s with
  | [] => Some acc
  | c :: s' =>
      match decimal_value c with
      | Some v => digits_value (10 * acc + v) s'
      | None => None
      end
  end.

(** [int] strips surrounding blanks and reads decimal digits of any
    script.  Signs and underscores never reach it from the date
    patterns, and are refused here. *)
Definition int (s : str) : result Z :=
  match strip s with
  | [] => Raise (ValueError "invalid literal for int() with base 10")
  | c :: s' =>
      match digits_value 0 (c :: s') with
      | Some v => Ok v
      | None => Raise (ValueError "invalid literal for int() with base 10")
      end
  end.

End Py.

Declare Scope py_scope.
Delimit Scope py_scope with py.
Notation "x <- m ;; k" := (Py.bind m (fun x => k))
  (at level 61, m at next level, right associativity) : py_scope.
Notation "m ;;; k" := (Py.bind m (fun _ => k))
  (at level 61, right associativity) : py_scope.
Notation "x <-! r ;; k" := (Py.rbind r (fun x => k))
  (at level 61, r at next level, right associativity) : py_scope.

Local Open Scope Z_scope.

(* ================================================================== *)
(** * The regular expressions [_strptime] compiles a format into       *)
(* ================================================================== *)

Module Re.
Import Py.

(** The fragment the date directives use: literals, ASCII ranges, the
    class [\d] (any Unicode decimal digit), sequence, ordered choice
    and named groups. *)
Inductive regex :=
| Chr (c : N)
| Rng (lo hi : N)
| UniDigit
| Cat (r1 r2 : regex)
| Alt (r1 r2 : regex)
| Grp (name : string) (r : regex).

Definition groups := list (string * str).

(** One way of matching a prefix: the text consumed, the groups it
    bound, and what is left of the input. *)
Definition hit := (str * groups * str)%type.

Definition one (p : N -> bool) (s : str) : list hit :=
  match s with
  | c :: s' => if p c then [([c], [], s')] else []
  | [] => []
  end.

(** Every way of matching a prefix of [s], in the order a
    backtracking matcher tries them: the first branch of a choice
    before the second, and inside a sequence the ways of the left
    part before any retry. *)
Fixpoint run (r : regex) (s : str) : list hit :=
  match r with
  | Chr c => one (N.eqb c) s
  | Rng lo hi => one (in_range lo hi) s
  | UniDigit => one chr_isdecimal s
  | Alt r1 r2 => run r1 s ++ run r2 s
  | Cat r1 r2 =>
      flat_map (fun h1 : hit =>
                  let '(t1, g1, s1) := h1 in
                  map (fun h2 : hit =>
                         let '(t2, g2, s2) := h2 in (t1 ++ t2, g1 ++ g2, s2))
                      (run r2 s1))
               (run r1 s)
  | Grp name r' =>
      map (fun h : hit => let '(t, g, s') := h in (t, (name, t) :: g, s'))
          (run r' s)
  end.

(** [pattern.match(s)]: the first way found, if any. *)
Definition match_ (r : regex) (s : str) : option hit :=
  match run r s with
  | h :: _ => Some h
  | [] => None
  end.

Fixpoint group (g : groups) (name : string) : str :=
  match g with
  | (n, t) :: g' => if String.eqb n name then t else group g' name
  | [] => []
  end.

Definition ch (a : ascii) : N := N_of_ascii a.

(** [%d]: [(?P<d>3[0-1]|[1-2]\d|0[1-9]|[1-9]| [1-9])] *)
Definition re_d : regex :=
  Grp "d"
    (Alt (Cat (Chr (ch "3")) (Rng (ch "0") (ch "1")))
    (Alt (Cat (Rng (ch "1") (ch "2")) UniDigit)
    (Alt (Cat (Chr (ch "0")) (Rng (ch "1") (ch "9")))
    (Alt (Rng (ch "1") (ch "9"))
         (Cat (Chr (ch " ")) (Rng (ch "1") (ch "9"))))))).

(** [%m]: [(?P<m>1[0-2]|0[1-9]|[1-9])] *)
Definition re_m : regex :=
  Grp "m"
    (Alt (Cat (Chr (ch "1")) (Rng (ch "0") (ch "2")))
    (Alt (Cat (Chr (ch "0")) (Rng (ch "1") (ch "9")))
         (Rng (ch "1") (ch "9")))).

(** [%Y]: [(?P<Y>\d\d\d\d)] *)
Definition re_Y : regex :=
  Grp "Y" (Cat UniDigit (Cat UniDigit (Cat UniDigit UniDigit))).

(** The pattern of the format ["%d.%m.%Y"].  It is compiled with
    IGNORECASE, which changes nothing for digits, the blank and the
    dot. *)
Definition re_d_m_Y : regex :=
  Cat re_d (Cat (Chr (ch ".")) (Cat re_m (Cat (Chr (ch ".")) re_Y))).

End Re.

(* ================================================================== *)
(** * [datetime.date]                                                  *)
(* ================================================================== *)

Module Datetime.
Import Py.

Definition MINYEAR : Z := 1.
Definition MAXYEAR : Z := 9999.

Record date := mkdate { year : Z; month : Z; day : Z }.

Definition DAYS_IN_MONTH : list Z :=
  [-1; 31; 28; 31; 30; 31; 30; 31; 31; 30; 31; 30; 31].
Definition DAYS_BEFORE_MONTH : list Z :=
  [-1; 0; 31; 59; 90; 120; 151; 181; 212; 243; 273; 304; 334].

Definition item (l : list Z) (i : Z) : Z := nth (Z.to_nat i) l 0.

Definition is_leap (y : Z) : bool :=
  (y mod 4 =? 0) && (negb (y mod 100 =? 0) || (y mod 400 =? 0)).

Definition days_before_year (y : Z) : Z :=
  let y := y - 1 in y * 365 + y / 4 - y / 100 + y / 400.

Definition days_in_month (y m : Z) : Z :=
  if (m =? 2) && is_leap y then 29 else item DAYS_IN_MONTH m.

Definition days_before_month (y m : Z) : Z :=
  item DAYS_BEFORE_MONTH m + Z.b2z ((2 <? m) && is_leap y).

Definition ymd2ord (y m d : Z) : Z :=
  days_before_year y + days_before_month y m + d.

Definition DI400Y : Z := 146097.
Definition DI100Y : Z := 36524.
Definition DI4Y : Z := 1461.
Definition MAXORDINAL : Z := 3652059.

Definition ord2ymd (n : Z) : date :=
  let n := n - 1 in
  let n400 := n / DI400Y in
  let n := n mod DI400Y in
  let year := n400 * 400 + 1 in
  let n100 := n / DI100Y in
  let n := n mod DI100Y in
  let n4 := n / DI4Y in
  let n := n mod DI4Y in
  let n1 := n / 365 in
  let n := n mod 365 in
  let year := year + n100 * 100 + n4 * 4 + n1 in
  if (n1 =? 4) || (n100 =? 4) then mkdate (year - 1) 12 31
  else
    let leapyear := (n1 =? 3) && (negb (n4 =? 24) || (n100 =? 3)) in
    let month := Z.shiftr (n + 50) 5 in
    let preceding :=
      item DAYS_BEFORE_MONTH month + Z.b2z ((2 <? month) && leapyear) in
    if n <? preceding then
      let month := month - 1 in
      let preceding :=
        preceding
        - (item DAYS_IN_MONTH month + Z.b2z ((month =? 2) && leapyear)) in
      mkdate year month (n - preceding + 1)
    else mkdate year month (n - preceding + 1).

(** [date(year, month, day)] with its range checks. *)
Definition date_new (y m d : Z) : result date :=
  if negb ((MINYEAR <=? y) && (y <=? MAXYEAR)) then
    Raise (ValueError "year is out of range")
  else if negb ((1 <=? m) && (m <=? 12)) then
    Raise (ValueError "month must be in 1..12")
  else if negb ((1 <=? d) && (d <=? days_in_month y m)) then
    Raise (ValueError "day is out of range for month")
  else Ok (mkdate y m d).

Definition toordinal (d : date) : Z := ymd2ord (year d) (month d) (day d).

(** [d.replace(year=y)] *)
Definition replace_year (d : date) (y : Z) : result date :=
  date_new y (month d) (day d).

(** [d + timedelta(days=n)] *)
Definition add_days (d : date) (n : Z) : result date :=
  let o := toordinal d + n in
  if (0 <? o) && (o <=? MAXORDINAL) then Ok (ord2ymd o)
  else Raise (OverflowError "date value out of range").

(** [d.weekday()]: Monday is 0, Sunday is 6. *)
Definition weekday (d : date) : Z := (toordinal d + 6) mod 7.

(** Dates compare as the tuples (year, month, day). *)
Definition date_lt (a b : date) : bool :=
  (year a <? year b)
  || ((year a =? year b)
      && ((month a <? month b)
          || ((month a =? month b) && (day a <? day b)))).

Definition date_eqb (a b : date) : bool :=
  (year a =? year b) && (month a =? month b) && (day a =? day b).

Definition date_le (a b : date) : bool := date_lt a b || date_eqb a b.

(** ** Parsing and printing with the format ["%d.%m.%Y"] *)

(** [datetime.strptime(s, "%d.%m.%Y").date()] *)
Definition strptime_d_m_Y (s : str) : result date :=
  match Re.match_ Re.re_d_m_Y s with
  | None => Raise (ValueError "time data does not match format")
  | Some (_, g, rest) =>
      match rest with
      | _ :: _ => Raise (ValueError "unconverted data remains")
      | [] =>
          y <-! int (Re.group g "Y") ;;
          m <-! int (Re.group g "m") ;;
          d <-! int (Re.group g "d") ;;
          date_new y m d
      end
  end%py.

Definition digit_chr (v : Z) : N := Z.to_N (48 + v).

Definition pad2 (v : Z) : str := [digit_chr (v / 10); digit_chr (v mod 10)].

Definition pad4 (v : Z) : str :=
  [digit_chr (v / 1000); digit_chr ((v / 100) mod 10);
   digit_chr ((v / 10) mod 10); digit_chr (v mod 10)].

(** The numeral of a year (1 to 9999) with no zeros before it. *)
Definition year_digits (v : Z) : str :=
  if v <? 10 then [digit_chr v]
  else if v <? 100 then pad2 v
  else if v <? 1000 then
    [digit_chr (v / 100); digit_chr ((v / 10) mod 10); digit_chr (v mod 10)]
  else pad4 v.

(** [d.strftime("%d.%m.%Y")].  The method hands the format to the
    [strftime] of the C library: day and month on two digits, zero
    filled, and the year as CPython 3.11 prints it with glibc, the
    plain numeral, so that [date(999, 3, 15)] gives "15.03.999". *)
Definition strftime_d_m_Y (d : date) : str :=
  pad2 (day d) ++ lit "." ++ pad2 (month d) ++ lit "." ++ year_digits (year d).

(** The wall clock of the process: the local date and the seconds
    elapsed since local midnight. *)
Record clock := mkclock { clock_date : date; clock_seconds : Z }.

(** [date.today()] *)
Definition today (c : clock) : date := clock_date c.

End Datetime.

(* ================================================================== *)
(** * The classes of address_book.py                                   *)
(* ================================================================== *)

Import Py Datetime.
Local Open Scope py_scope.

(** ** [Field] and its subclasses

    [Name], [Phone] and [Birthday] add no attribute to [Field]: an
    object of any of them is its [value]. *)

Record Field := mkField { value : str }.

Definition Field_init (v : str) : Field := mkField v.

(** [Field.__str__] *)
Definition Field_str (f : Field) : str := value f.

(** [class Name(Field): pass] *)
Definition Name := Field.
Definition Name_init (v : str) : result Name := Ok (Field_init v).

Definition Phone := Field.

(** [Phone.__init__] *)
Definition Phone_init (v : str) : result Phone :=
  if negb (isdigit v && (len v =? 10)) then
    Raise (ValueError "Phone number must contain exactly 10 digits.")
  else Ok (Field_init v).

Definition Birthday := Field.

(** [Birthday.__init__]: whatever [ValueError] the parser raises is
    replaced by the class's own. *)
Definition Birthday_init (v : str) : result Birthday :=
  match strptime_d_m_Y v with
  | Ok _ => Ok (Field_init v)
  | Raise (ValueError _) =>
      Raise (ValueError "Invalid date format. Please use DD.MM.YYYY")
  | Raise e => Raise e
  end.

(** [Birthday.to_date] *)
Definition to_date (b : Birthday) : result date := strptime_d_m_Y (value b).

(** ** [Record] *)

Record Record_ := mkRecord {
  name : Name;
  phones : list Phone;
  birthday : option Birthday
}.

Definition set_phones (ps : list Phone) (r : Record_) : Record_ :=
  mkRecord (name r) ps (birthday r).

Definition set_birthday (b : option Birthday) (r : Record_) : Record_ :=
  mkRecord (name r) (phones r) b.

(** [Record.__init__] *)
Definition Record_init (nm : str) : result Record_ :=
  n <-! Name_init nm ;;
  Ok (mkRecord n [] None).

(** The loop of [find_phone]. *)
Fixpoint find_phone_in (ps : list Phone) (phone : str) : option Phone :=
  match ps with
  | p :: ps' => if str_eqb (value p) phone then Some p else find_phone_in ps' phone
  | [] => None
  end.

Definition find_phone (phone : str) : M Record_ (option Phone) :=
  ps <- gets phones ;;
  ret (find_phone_in ps phone).

Definition add_phone (phone : str) : M Record_ unit :=
  p <- eval (Phone_init phone) ;;
  self <- get ;;
  put (set_phones (phones self ++ [p]) self).

(** [Phone] defines no [__eq__], so [list.index] and [list.remove]
    look for the very object they are given.  That object is the one
    [find_phone] returned, the first entry holding the value sought:
    an entry before it cannot be the same object without holding the
    same value.  The position is therefore that of the first entry
    with this value, which is what the comparison of values finds. *)
Definition Field_eqb (a b : Field) : bool := str_eqb (value a) (value b).

(** [l.index(x)] *)
Fixpoint list_index (l : list Field) (x : Field) : result Z :=
  match l with
  | y :: l' =>
      if Field_eqb y x then Ok 0
      else i <-! list_index l' x ;; Ok (i + 1)
  | [] => Raise (ValueError "x is not in list")
  end.

(** [l.remove(x)] *)
Fixpoint list_remove (l : list Field) (x : Field) : result (list Field) :=
  match l with
  | y :: l' =>
      if Field_eqb y x then Ok l'
      else r <-! list_remove l' x ;; Ok (y :: r)
  | [] => Raise (ValueError "list.remove(x): x not in list")
  end.

(** [l[i] = x], for the indices [list.index] returns. *)
Fixpoint list_setitem (l : list Field) (i : Z) (x : Field) : result (list Field) :=
  match l with
  | y :: l' =>
      if i =? 0 then Ok (x :: l')
      else r <-! list_setitem l' (i - 1) x ;; Ok (y :: r)
  | [] => Raise (ValueError "list assignment index out of range")
  end.

Definition remove_phone (phone : str) : M Record_ unit :=
  found_phone <- find_phone phone ;;
  match found_phone with
  | Some p =>
      self <- get ;;
      ps <- eval (list_remove (phones self) p) ;;
      put (set_phones ps self)
  | None => ret tt
  end.

(** In [self.phones[self.phones.index(found_phone)] = Phone(new_phone)]
    the right-hand side is evaluated first. *)
Definition edit_phone (old_phone new_phone : str) : M Record_ unit :=
  found_phone <- find_phone old_phone ;;
  match found_phone with
  | None => raise (ValueError "Old phone number not found.")
  | Some p =>
      q <- eval (Phone_init new_phone) ;;
      self <- get ;;
      i <- eval (list_index (phones self) p) ;;
      ps <- eval (list_setitem (phones self) i q) ;;
      put (set_phones ps self)
  end.

Definition add_birthday (b : str) : M Record_ unit :=
  v <- eval (Birthday_init b) ;;
  self <- get ;;
  put (set_birthday (Some v) self).

(** ** [AddressBook]

    [data] is the dictionary of the [UserDict]: keys in insertion
    order, each at most once. *)

Record AddressBook := mkBook { data : list (str * Record_) }.

(** [d[k] = v]: an existing key keeps its place. *)
Fixpoint dict_set (d : list (str * Record_)) (k : str) (v : Record_)
  : list (str * Record_) :=
  match d with
  | (k', v') :: d' =>
      if str_eqb k' k then (k', v) :: d' else (k', v') :: dict_set d' k v
  | [] => [(k, v)]
  end.

(** [d.get(k)] *)
Fixpoint dict_get (d : list (str * Record_)) (k : str) : option Record_ :=
  match d with
  | (k', v') :: d' => if str_eqb k' k then Some v' else dict_get d' k
  | [] => None
  end.

(** [d.pop(k, None)], the popped value dropped. *)
Fixpoint dict_pop (d : list (str * Record_)) (k : str) : list (str * Record_) :=
  match d with
  | (k', v') :: d' => if str_eqb k' k then d' else (k', v') :: dict_pop d' k
  | [] => []
  end.

Definition dict_values (d : list (str * Record_)) : list Record_ := map snd d.

Definition add_record (record : Record_) : M AddressBook unit :=
  self <- get ;;
  put (mkBook (dict_set (data self) (value (name record)) record)).

Definition find (nm : str) : M AddressBook (option Record_) :=
  d <- gets data ;;
  ret (dict_get d nm).

Definition delete (nm : str) : M AddressBook unit :=
  self <- get ;;
  put (mkBook (dict_pop (data self) nm)).

(** [_move_to_monday_if_weekend] *)
Definition _move_to_monday_if_weekend (d : date) : result date :=
  let wd := weekday d in
  if wd =? 5 then add_days d 2
  else if wd =? 6 then add_days d 1
  else Ok d.

(** [try: bday.replace(year=y) except ValueError: return None]: the
    handler catches [ValueError] only. *)
Definition try_replace_year {S A} (bday : date) (y : Z)
    (on_error : M S A) (k : date -> M S A) : M S A :=
  match replace_year bday y with
  | Ok d => k d
  | Raise (ValueError _) => on_error
  | Raise e => raise e
  end.

(** [_get_congrats_date] *)
Definition _get_congrats_date (record : Record_) (today : date)
  : M AddressBook (option date) :=
  match birthday record with
  | None => ret None
  | Some b =>
      bday <- eval (to_date b) ;;
      try_replace_year bday (year today) (ret None) (fun bday_this_year =>
        if date_lt bday_this_year today then
          try_replace_year bday (year today + 1) (ret None)
            (fun bday_this_year =>
               d <- eval (_move_to_monday_if_weekend bday_this_year) ;;
               ret (Some d))
        else
          d <- eval (_move_to_monday_if_weekend bday_this_year) ;;
          ret (Some d))
  end.

(** The dictionaries [get_upcoming_birthdays] returns, keys in order. *)
Definition entry := list (str * str).

Definition mk_entry (record : Record_) (congrats : date) : entry :=
  [(lit "name", value (name record));
   (lit "birthday", strftime_d_m_Y congrats)].

(** The [for] loop of [get_upcoming_birthdays], [result] being the list
    built so far. *)
Fixpoint upcoming_loop (records : list Record_) (today end_day : date)
    (result : list entry) : M AddressBook (list entry) :=
  match records with
  | [] => ret result
  | record :: rest =>
      congrats <- _get_congrats_date record today ;;
      match congrats with
      | None => upcoming_loop rest today end_day result
      | Some c =>
          if date_le today c && date_le c end_day then
            upcoming_loop rest today end_day (result ++ [mk_entry record c])
          else upcoming_loop rest today end_day result
      end
  end.

(** [get_upcoming_birthdays]: the method has no parameter but [self];
    the date comes from the clock of the process. *)
Definition get_upcoming_birthdays (clk : clock) : M AddressBook (list entry) :=
  let today := Datetime.today clk in
  end_day <- eval (add_days today 7) ;;
  d <- gets data ;;
  upcoming_loop (dict_values d) today end_day [].

(* ================================================================== *)
(** * What the specification speaks of                                 *)
(* ================================================================== *)

(** A decimal digit, as the specification means it: one of 0 to 9. *)
Definition ascii_digit (c : N) : Prop := (48 <= c <= 57)%N.

(** "Exactly 10 decimal digits". *)
Definition ten_decimal_digits (s : str) : Prop :=
  List.length s = 10%nat /\ Forall ascii_digit s.

(** What [Phone.__init__] checks: ten characters that [str.isdigit]
    takes for digits. *)
Definition ten_digits (s : str) : Prop :=
  List.length s = 10%nat /\ Forall (fun c => chr_isdigit c = true) s.

Definition digit_of (c : N) : Z := Z.of_N c - 48.

(** A text in the strict form DD.MM.YYYY, and the day, month and year
    it spells. *)
Inductive strict_DD_MM_YYYY : str -> date -> Prop :=
| strict_text (d1 d2 m1 m2 y1 y2 y3 y4 : N) :
    Forall ascii_digit [d1; d2; m1; m2; y1; y2; y3; y4] ->
    strict_DD_MM_YYYY
      [d1; d2; 46%N; m1; m2; 46%N; y1; y2; y3; y4]
      (mkdate (1000 * digit_of y1 + 100 * digit_of y2
               + 10 * digit_of y3 + digit_of y4)
              (10 * digit_of m1 + digit_of m2)
              (10 * digit_of d1 + digit_of d2)).

(** A date of the calendar [datetime] implements: the years 1 to 9999
    of the proleptic Gregorian calendar, which has no year 0. *)
Definition real_date (d : date) : Prop :=
  MINYEAR <= year d <= MAXYEAR /\ 1 <= month d <= 12
  /\ 1 <= day d <= days_in_month (year d) (month d).

(** The invariant of a record's telephone list. *)
Definition phones_valid (r : Record_) : Prop :=
  Forall (fun p => ten_digits (value p)) (phones r).

(** The same in the words of the specification: every entry holds
    exactly 10 decimal digits. *)
Definition phones_decimal (r : Record_) : Prop :=
  Forall (fun p => ten_decimal_digits (value p)) (phones r).

(** The calls a client can make on a record, and the record a
    sequence of them leaves, raised exceptions being caught by the
    caller. *)
Inductive call :=
| Call_add_phone (phone : str)
| Call_remove_phone (phone : str)
| Call_edit_phone (old_phone new_phone : str)
| Call_add_birthday (b : str).

Definition do_call (c : call) : M Record_ unit :=
  match c with
  | Call_add_phone phone => add_phone phone
  | Call_remove_phone phone => remove_phone phone
  | Call_edit_phone old_phone new_phone => edit_phone old_phone new_phone
  | Call_add_birthday b => add_birthday b
  end.

Fixpoint after_calls (cs : list call) (r : Record_) : Record_ :=
  match cs with
  | [] => r
  | c :: cs' => after_calls cs' (snd (do_call c r))
  end.

(** ** Sample data *)

Definition contact (nm bd : string) : Record_ :=
  mkRecord (Field_init (lit nm)) [] (Some (Field_init (lit bd))).

Definition book_of (rs : list Record_) : AddressBook :=
  mkBook (map (fun r => (value (name r), r)) rs).

Definition at_date (y m d : Z) : clock := mkclock (mkdate y m d) 0.

Definition superscript_twos : str := repeat 178%N 10.

(* ================================================================== *)
(** * Rendering, and what the further properties speak of              *)
(* ================================================================== *)

(** [sep.join(l)] *)
Fixpoint join (sep : str) (l : list str) : str :=
  match l with
  | [] => []
  | [x] => x
  | x :: l' => x ++ sep ++ join sep l'
  end.

(** [Record.__str__]: an empty list is false, a [Birthday] is true. *)
Definition Record_str (self : Record_) : str :=
  let phones_str :=
    match phones self with
    | [] => lit "-"
    | _ :: _ => join (lit "; ") (map value (phones self))
    end in
  let bday_str :=
    match birthday self with
    | Some b => Field_str b
    | None => lit "-"
    end in
  lit "Contact name: " ++ value (name self) ++ lit ", phones: " ++ phones_str
  ++ lit ", birthday: " ++ bday_str.

Definition newline : str := [10%N].

(** [AddressBook.__str__] *)
Definition AddressBook_str (self : AddressBook) : str :=
  match data self with
  | [] => lit "No contacts saved."
  | _ :: _ => join newline (map Record_str (dict_values (data self)))
  end.

(** The keys of the dictionary, in its order. *)
Definition keys (b : AddressBook) : list str := map fst (data b).

(** A dictionary holds a key once; [add_record] files a record under
    its name. *)
Definition book_ok (b : AddressBook) : Prop :=
  NoDup (keys b)
  /\ Forall (fun kv => fst kv = value (name (snd kv))) (data b).

(** The calls that change a book, and the book a sequence of them
    leaves. *)
Inductive book_call :=
| Call_add_record (record : Record_)
| Call_delete (nm : str).

Definition do_book_call (c : book_call) : M AddressBook unit :=
  match c with
  | Call_add_record record => add_record record
  | Call_delete nm => delete nm
  end.

Fixpoint after_book_calls (cs : list book_call) (b : AddressBook) : AddressBook :=
  match cs with
  | [] => b
  | c :: cs' => after_book_calls cs' (snd (do_book_call c b))
  end.

(** A birthday that parses, as [Birthday.__init__] leaves it. *)
Definition birthday_valid (r : Record_) : Prop :=
  match birthday r with
  | None => True
  | Some b => exists d, to_date b = Ok d /\ real_date d
  end.

(** The entry a record gives to [get_upcoming_birthdays], if any. *)
Definition window_entry (t end_day : date) (self : AddressBook)
    (record : Record_) : list entry :=
  match fst (_get_congrats_date record t self) with
  | Ok (Some c) =>
      if date_le t c && date_le c end_day then [mk_entry record c] else []
  | _ => []
  end.

(** [item[key]] on an entry: the value under a key it holds. *)
Fixpoint entry_get (e : entry) (k : str) : option str :=
  match e with
  | (k', v) :: e' => if str_eqb k' k then Some v else entry_get e' k
  | [] => None
  end.

(** The least and the greatest number of characters a pattern takes. *)
Fixpoint min_len (r : Re.regex) : nat :=
  match r with
  | Re.Chr _ | Re.Rng _ _ | Re.UniDigit => 1
  | Re.Cat r1 r2 => min_len r1 + min_len r2
  | Re.Alt r1 r2 => Nat.min (min_len r1) (min_len r2)
  | Re.Grp _ r' => min_len r'
  end.

Fixpoint max_len (r : Re.regex) : nat :=
  match r with
  | Re.Chr _ | Re.Rng _ _ | Re.UniDigit => 1
  | Re.Cat r1 r2 => max_len r1 + max_len r2
  | Re.Alt r1 r2 => Nat.max (max_len r1) (max_len r2)
  | Re.Grp _ r' => max_len r'
  end.

(* ================================================================== *)
(** * The command handlers of main.py                                  *)
(* ================================================================== *)

Declare Scope handler_scope.
Delimit Scope handler_scope with handler.

Module Main.

(** What a handler can raise: the exceptions of the classes, and those
    of the interpreter on a wrong index, key or attribute. *)
Inductive raised :=
| Std (e : exn)
| IndexError (msg : string)
| KeyError (msg : string)
| AttributeError (msg : string).

(** A handler works on the book it is given, which it may change. *)
Definition H (A : Type) := AddressBook -> (A + raised) * AddressBook.

Definition hret {A} (a : A) : H A := fun book => (inl a, book).
Definition hraise {A} (e : raised) : H A := fun book => (inr e, book).
Definition hbind {A B} (m : H A) (k : A -> H B) : H B :=
  fun book => match m book with
              | (inl a, book') => k a book'
              | (inr e, book') => (inr e, book')
              end.

(** A method of [AddressBook] called by a handler. *)
Definition core {A} (m : M AddressBook A) : H A :=
  fun book => match m book with
              | (Ok a, book') => (inl a, book')
              | (Raise e, book') => (inr (Std e), book')
              end.

Notation "x <- m ;; k" := (hbind m (fun x => k))
  (at level 61, m at next level, right associativity) : handler_scope.
Notation "m ;;; k" := (hbind m (fun _ => k))
  (at level 61, right associativity) : handler_scope.

Local Open Scope handler_scope.

(** A method called on the variable [record] of a handler.  The
    variable holds what [book.find(key)] returned, or the record just
    filed under [key]: the object the book holds under that key, so
    that the book sees what the method does to it, or [None], which
    has no methods. *)
Definition on_record {A} (key : str) (attr : string) (m : M Record_ A) : H A :=
  fun book =>
    match dict_get (data book) key with
    | Some r =>
        match m r with
        | (Ok a, r') => (inl a, mkBook (dict_set (data book) key r'))
        | (Raise e, r') => (inr (Std e), mkBook (dict_set (data book) key r'))
        end
    | None =>
        (inr (AttributeError ("'NoneType' object has no attribute '" ++ attr ++ "'")),
         book)
    end.

Definition digit_string (n : nat) : string :=
  String (ascii_of_nat (48 + n)) "".

(** The message of [a, b = args] on a list of the wrong length. *)
Definition unpack_message (expected got : nat) : string :=
  if Nat.ltb got expected then
    "not enough values to unpack (expected " ++ digit_string expected
    ++ ", got " ++ digit_string got ++ ")"
  else "too many values to unpack (expected " ++ digit_string expected ++ ")".

Definition unpack_error {A} (expected : nat) (args : list str) : H A :=
  hraise (Std (ValueError (unpack_message expected (List.length args)))).

(** [input_error]: the wrapper answers with a text for the four
    exceptions it names and lets any other pass. *)
Definition input_error (func : list str -> H str) (args : list str)
  : M AddressBook str :=
  fun book =>
    match func args book with
    | (inl reply, book') => (Ok reply, book')
    | (inr (Std (ValueError msg)), book') =>
        (Ok (match lit msg with
             | [] => lit "Give me name and phone please."
             | text => text
             end), book')
    | (inr (IndexError _), book') =>
        (Ok (lit "Enter the argument for the command"), book')
    | (inr (KeyError _), book') => (Ok (lit "Contact not found"), book')
    | (inr (AttributeError _), book') => (Ok (lit "Contact not found"), book')
    | (inr (Std e), book') => (Raise e, book')
    end.

(** [add_contact], under its decorator. *)
Definition add_contact_def (args : list str) : H str :=
  match args with
  | [nm; phone] =>
      record <- core (find nm) ;;
      match record with
      | None =>
          new_record <- core (eval (Record_init nm)) ;;
          core (add_record new_record)
      | Some _ => hret tt
      end ;;;
      on_record nm "add_phone" (add_phone phone) ;;;
      hret (lit "Contact added")
  | _ => unpack_error 2 args
  end.

Definition change_contact_def (args : list str) : H str :=
  match args with
  | [nm; old_phone; new_phone] =>
      on_record nm "edit_phone" (edit_phone old_phone new_phone) ;;;
      hret (lit "Contact updated")
  | _ => unpack_error 3 args
  end.

Definition show_phone_def (args : list str) : H str :=
  match args with
  | [] => hraise (IndexError "list index out of range")
  | nm :: _ =>
      ps <- on_record nm "phones" (gets phones) ;;
      match ps with
      | [] => hret (lit "No phones saved for this contact")
      | _ :: _ => hret (join (lit "; ") (map value ps))
      end
  end.

Definition show_all_def (args : list str) : H str :=
  core (gets AddressBook_str).

Definition add_birthday_def (args : list str) : H str :=
  match args with
  | [nm; b] =>
      on_record nm "add_birthday" (add_birthday b) ;;;
      hret (lit "Birthday added")
  | _ => unpack_error 2 args
  end.

Definition show_birthday_def (args : list str) : H str :=
  match args with
  | [] => hraise (IndexError "list index out of range")
  | nm :: _ =>
      b <- on_record nm "birthday" (gets birthday) ;;
      match b with
      | None => hret (lit "No birthday saved for this contact")
      | Some v => hret (Field_str v)
      end
  end.

(** [item['name']], [item['birthday']] *)
Definition item_get (en : entry) (k : string) : H str :=
  match entry_get en (lit k) with
  | Some v => hret v
  | None => hraise (KeyError k)
  end.

(** The loop of [birthdays] over the entries. *)
Fixpoint birthday_lines (upcoming : list entry) (lines : list str) : H (list str) :=
  match upcoming with
  | [] => hret lines
  | en :: rest =>
      n <- item_get en "name" ;;
      b <- item_get en "birthday" ;;
      birthday_lines rest (lines ++ [n ++ lit ": " ++ b])
  end.

Definition birthdays_def (clk : clock) (args : list str) : H str :=
  upcoming <- core (get_upcoming_birthdays clk) ;;
  match upcoming with
  | [] => hret (lit "No birthdays in the next 7 days.")
  | _ :: _ =>
      lines <- birthday_lines upcoming [] ;;
      hret (join newline lines)
  end.

Definition add_contact := input_error add_contact_def.
Definition change_contact := input_error change_contact_def.
Definition show_phone := input_error show_phone_def.
Definition show_all := input_error show_all_def.
Definition add_birthday := input_error add_birthday_def.
Definition show_birthday := input_error show_birthday_def.
Definition birthdays (clk : clock) := input_error (birthdays_def clk).

End Main.

(* ================================================================== *)
(** * Properties                                                       *)
(* ================================================================== *)

Ltac unfold_py :=
  unfold bind, rbind, ret, raise, eval, gets, get, put in *.

Ltac break_match :=
  repeat match goal with
         | |- context [match ?x with _ => _ end] => destruct x eqn:?
         | |- context [if ?x then _ else _] => destruct x eqn:?
         end.

Section Strings.

Lemma str_eqb_eq (a b : str) : str_eqb a b = true <-> a = b.
Proof.
  revert b; induction a as [|x a IH]; intros [|y b]; simpl;
    try (split; (reflexivity || discriminate)).
  rewrite andb_true_iff, N.eqb_eq, IH. split.
  - intros [-> ->]; reflexivity.
  - intros H; inversion H; auto.
Qed.

Lemma str_eqb_refl (a : str) : str_eqb a a = true.
Proof. apply str_eqb_eq; reflexivity. Qed.

Lemma str_eqb_neq (a b : str) : a <> b -> str_eqb a b = false.
Proof.
  intros H. destruct (str_eqb a b) eqn:E; [|reflexivity].
  apply str_eqb_eq in E. contradiction.
Qed.

Lemma ascii_digit_value (c : N) :
  ascii_digit c -> decimal_value c = Some (digit_of c).
Proof.
  unfold ascii_digit, decimal_value, digit_of. intros H.
  unfold decimal_zeros, decimal_in, in_range.
  replace ((48 <=? c)%N && (c <=? 48 + 9)%N) with true.
  - f_equal. lia.
  - symmetry. apply andb_true_iff; split; apply N.leb_le; lia.
Qed.

Lemma ascii_digit_isdecimal (c : N) : ascii_digit c -> chr_isdecimal c = true.
Proof.
  intros H. unfold chr_isdecimal. rewrite (ascii_digit_value H). reflexivity.
Qed.

Lemma ascii_digit_isdigit (c : N) : ascii_digit c -> chr_isdigit c = true.
Proof.
  intros H. unfold chr_isdigit. rewrite (ascii_digit_isdecimal H). reflexivity.
Qed.

Lemma ten_decimal_digits_ten_digits (s : str) :
  ten_decimal_digits s -> ten_digits s.
Proof.
  intros [L F]. split; [exact L|].
  eapply Forall_impl; [|exact F]. intros c; apply ascii_digit_isdigit.
Qed.

Lemma len_10 (s : str) : (len s =? 10) = true <-> List.length s = 10%nat.
Proof. unfold len. rewrite Z.eqb_eq. lia. Qed.

Lemma isdigit_spec (s : str) :
  isdigit s = true <-> s <> [] /\ Forall (fun c => chr_isdigit c = true) s.
Proof.
  unfold isdigit. rewrite andb_true_iff, negb_true_iff, forallb_forall, Forall_forall.
  split; intros [H1 H2]; split; auto.
  - intros ->. discriminate.
  - destruct s; [contradiction | reflexivity].
Qed.

(** The test of [Phone.__init__] passes exactly on [ten_digits]. *)
Lemma phone_test_spec (s : str) :
  isdigit s && (len s =? 10) = true <-> ten_digits s.
Proof.
  rewrite andb_true_iff, isdigit_spec, len_10. unfold ten_digits.
  split.
  - intros [[_ F] L]; auto.
  - intros [L F]. repeat split; auto. intros ->; discriminate.
Qed.

Lemma Phone_init_ok (s : str) : ten_digits s -> Phone_init s = Ok (Field_init s).
Proof.
  intros H. unfold Phone_init. apply phone_test_spec in H. rewrite H. reflexivity.
Qed.

Lemma Phone_init_inv (s : str) (p : Phone) :
  Phone_init s = Ok p -> p = Field_init s /\ ten_digits s.
Proof.
  unfold Phone_init. destruct (isdigit s && (len s =? 10)) eqn:E; simpl.
  - intros H; inversion H. split; [reflexivity | apply phone_test_spec; exact E].
  - discriminate.
Qed.

End Strings.

Section PhoneNumbers.

(** C5, as the specification states it, fails: ten superscript twos
    (U+00B2) are not decimal digits, in ASCII or in any script, yet
    [str.isdigit] takes each for a digit and the [Phone] is built. *)
Lemma Phone_init_superscript_twos :
  Phone_init superscript_twos = Ok (Field_init superscript_twos)
  /\ ~ ten_decimal_digits superscript_twos
  /\ forallb (fun c => negb (chr_isdecimal c)) superscript_twos = true.
Proof.
  split; [reflexivity|]. split; [|reflexivity].
  intros [_ F]. inversion F as [|c l H _]; subst.
  unfold ascii_digit in H. lia.
Qed.

(** C5, amended: a [Phone] is built exactly from the strings of ten
    characters that [str.isdigit] takes for digits; every string of
    ten decimal digits 0 to 9 is one of them; every other string
    raises the [ValueError] of the class. *)
Theorem Phone_init_iff_ten_digits (s : str) :
  (Phone_init s = Ok (Field_init s) <-> ten_digits s)
  /\ (ten_decimal_digits s -> Phone_init s = Ok (Field_init s))
  /\ (~ ten_digits s ->
      Phone_init s
      = Raise (ValueError "Phone number must contain exactly 10 digits.")).
Proof.
  split; [|split].
  - split.
    + intros H. apply Phone_init_inv in H. tauto.
    + apply Phone_init_ok.
  - intros H. apply Phone_init_ok, ten_decimal_digits_ten_digits, H.
  - intros H. unfold Phone_init.
    destruct (isdigit s && (len s =? 10)) eqn:E; [|reflexivity].
    apply phone_test_spec in E. contradiction.
Qed.

Lemma Phone_init_iff_ten_digits_witness :
  ten_decimal_digits (lit "0123456789")
  /\ Phone_init (lit "0123456789") = Ok (Field_init (lit "0123456789")).
Proof.
  assert (H : ten_decimal_digits (lit "0123456789")).
  { split; [reflexivity|]. repeat constructor; unfold ascii_digit; simpl; lia. }
  split; [exact H|].
  exact (proj1 (proj2 (Phone_init_iff_ten_digits (lit "0123456789"))) H).
Defined.

End PhoneNumbers.

Section Names.

(** C2: the constructor of [Record] checks nothing.  The empty name
    builds a record like any other name does. *)
Theorem Record_init_accepts_empty_name :
  Record_init (lit "") = Ok (mkRecord (Field_init []) [] None)
  /\ forall nm : str, Record_init nm = Ok (mkRecord (Field_init nm) [] None).
Proof. split; [reflexivity | intros nm; reflexivity]. Qed.

End Names.

Section Calendar.

Lemma is_leap_next (y : Z) : is_leap y = true -> is_leap (y + 1) = false.
Proof.
  unfold is_leap. intros H. apply andb_true_iff in H as [H _].
  apply Z.eqb_eq in H.
  replace ((y + 1) mod 4 =? 0) with false; [reflexivity|].
  symmetry. apply Z.eqb_neq.
  pose proof (Z.mod_pos_bound (y + 1) 4 ltac:(lia)).
  pose proof (Z.div_mod (y + 1) 4 ltac:(lia)).
  pose proof (Z.div_mod y 4 ltac:(lia)). lia.
Qed.

Lemma feb_days (y : Z) : days_in_month y 2 = if is_leap y then 29 else 28.
Proof. unfold days_in_month. simpl. destruct (is_leap y); reflexivity. Qed.

(** 29 February can only be carried into a leap year. *)
Lemma replace_year_feb29_ok (bday cand : date) (y : Z) :
  month bday = 2 -> day bday = 29 ->
  replace_year bday y = Ok cand ->
  is_leap y = true /\ cand = mkdate y 2 29.
Proof.
  intros Hm Hd. unfold replace_year, date_new. rewrite Hm, Hd, feb_days.
  destruct (is_leap y); simpl; break_match; intros H; inversion H; auto.
Qed.

Lemma replace_year_feb29_fails (bday : date) (y : Z) :
  month bday = 2 -> day bday = 29 -> is_leap y = false ->
  exists msg, replace_year bday y = Raise (ValueError msg).
Proof.
  intros Hm Hd Hl. unfold replace_year, date_new. rewrite Hm, Hd, feb_days, Hl.
  simpl. break_match; eauto.
Qed.

Lemma days_before_year_next (y : Z) :
  days_before_year (y + 1) = days_before_year y + 365 + Z.b2z (is_leap y).
Proof.
  unfold days_before_year, is_leap.
  replace (y + 1 - 1) with y by lia.
  destruct (y mod 4 =? 0) eqn:E4; destruct (y mod 100 =? 0) eqn:E100;
    destruct (y mod 400 =? 0) eqn:E400; simpl;
    rewrite ?Z.eqb_eq, ?Z.eqb_neq in *;
    Z.to_euclidean_division_equations; lia.
Qed.

Lemma days_before_year_mono (y1 y2 : Z) :
  y1 <= y2 -> days_before_year y1 <= days_before_year y2.
Proof.
  unfold days_before_year. intros H.
  Z.to_euclidean_division_equations; lia.
Qed.

Lemma month_cases (m : Z) :
  1 <= m <= 12 ->
  m = 1 \/ m = 2 \/ m = 3 \/ m = 4 \/ m = 5 \/ m = 6
  \/ m = 7 \/ m = 8 \/ m = 9 \/ m = 10 \/ m = 11 \/ m = 12.
Proof. lia. Qed.

Ltac each_month H :=
  destruct (@month_cases _ H)
    as [->|[->|[->|[->|[->|[->|[->|[->|[->|[->|[->| ->]]]]]]]]]]].

(** The months of a year follow one another without gap or overlap. *)
Lemma days_before_month_next (y m : Z) :
  1 <= m <= 11 ->
  days_before_month y (m + 1) = days_before_month y m + days_in_month y m.
Proof.
  intros H. assert (H' : 1 <= m <= 12) by lia.
  unfold days_before_month, days_in_month.
  each_month H'; try lia; destruct (is_leap y); reflexivity.
Qed.

Lemma days_in_month_pos (y m : Z) : 1 <= m <= 12 -> 28 <= days_in_month y m <= 31.
Proof.
  intros H. unfold days_in_month, item, DAYS_IN_MONTH.
  each_month H; destruct (is_leap y); simpl; lia.
Qed.

Lemma days_before_month_mono (y m m' : Z) :
  1 <= m -> m < m' -> m' <= 12 ->
  days_before_month y m + days_in_month y m <= days_before_month y m'.
Proof.
  intros H1 H2 H3.
  assert (Hm : 1 <= m <= 12) by lia. assert (Hm' : 1 <= m' <= 12) by lia.
  unfold days_before_month, days_in_month, item, DAYS_IN_MONTH, DAYS_BEFORE_MONTH.
  each_month Hm; each_month Hm'; try lia; destruct (is_leap y); simpl; lia.
Qed.

Lemma days_before_month_bound (y m : Z) :
  1 <= m <= 12 ->
  0 <= days_before_month y m
  /\ days_before_month y m + days_in_month y m <= 365 + Z.b2z (is_leap y).
Proof.
  intros H.
  unfold days_before_month, days_in_month, item, DAYS_IN_MONTH, DAYS_BEFORE_MONTH.
  each_month H; destruct (is_leap y); simpl; lia.
Qed.

(** The ordinal of a real date falls inside its year. *)
Lemma toordinal_in_year (d : date) :
  real_date d ->
  days_before_year (year d) < toordinal d <= days_before_year (year d + 1).
Proof.
  intros (_ & Hm & Hd). unfold toordinal, ymd2ord.
  rewrite days_before_year_next.
  pose proof (@days_before_month_bound (year d) (month d) Hm). lia.
Qed.

Lemma date_lt_toordinal (a b : date) :
  real_date a -> real_date b -> date_lt a b = true -> toordinal a < toordinal b.
Proof.
  intros Ha Hb. unfold date_lt.
  rewrite orb_true_iff, !andb_true_iff, orb_true_iff, andb_true_iff.
  rewrite !Z.ltb_lt, !Z.eqb_eq.
  intros [Hy|[Hy [Hm|[Hm Hd]]]].
  - pose proof (@toordinal_in_year a Ha). pose proof (@toordinal_in_year b Hb).
    pose proof (@days_before_year_mono (year a + 1) (year b) ltac:(lia)). lia.
  - destruct Ha as (_ & Hma & Hda). destruct Hb as (_ & Hmb & Hdb).
    unfold toordinal, ymd2ord. rewrite Hy in *.
    pose proof (@days_before_month_mono (year b) (month a) (month b)
                  ltac:(lia) Hm ltac:(lia)). lia.
  - unfold toordinal, ymd2ord. rewrite Hy, Hm. lia.
Qed.

Lemma date_eqb_eq (a b : date) : date_eqb a b = true <-> a = b.
Proof.
  unfold date_eqb. rewrite !andb_true_iff, !Z.eqb_eq.
  destruct a, b; simpl. split.
  - intros [[-> ->] ->]; reflexivity.
  - intros H; inversion H; auto.
Qed.

Lemma date_trichotomy (a b : date) :
  date_lt a b = true \/ a = b \/ date_lt b a = true.
Proof.
  unfold date_lt. destruct a as [ya ma da], b as [yb mb db]; simpl.
  destruct (Z.lt_trichotomy ya yb) as [H|[H|H]].
  - left. apply Z.ltb_lt in H. rewrite H. reflexivity.
  - subst. rewrite Z.ltb_irrefl, Z.eqb_refl. simpl.
    destruct (Z.lt_trichotomy ma mb) as [H|[H|H]].
    + left. apply Z.ltb_lt in H. rewrite H. reflexivity.
    + subst. rewrite Z.ltb_irrefl, Z.eqb_refl. simpl.
      destruct (Z.lt_trichotomy da db) as [H|[H|H]].
      * left. apply Z.ltb_lt. exact H.
      * right. left. subst. reflexivity.
      * right. right. apply Z.ltb_lt. exact H.
    + right. right. apply Z.ltb_lt in H. rewrite H. reflexivity.
  - right. right. apply Z.ltb_lt in H. rewrite H. reflexivity.
Qed.

(** On real dates the order of the tuples is the order of the ordinals. *)
Lemma date_le_toordinal (a b : date) :
  real_date a -> real_date b ->
  (date_le a b = true <-> toordinal a <= toordinal b).
Proof.
  intros Ha Hb. unfold date_le. rewrite orb_true_iff, date_eqb_eq. split.
  - intros [H| ->]; [|lia]. pose proof (@date_lt_toordinal a b Ha Hb H). lia.
  - intros H. destruct (date_trichotomy a b) as [H1|[H1|H1]]; auto.
    pose proof (@date_lt_toordinal b a Hb Ha H1). lia.
Qed.

(** A year written in the cycles of 400, 100, 4 and 1 years. *)
Lemma days_before_year_cycles (n400 n100 n4 n1 : Z) :
  0 <= n100 <= 3 -> 0 <= n4 <= 24 -> 0 <= n1 <= 3 ->
  days_before_year (n400 * 400 + 1 + n100 * 100 + n4 * 4 + n1)
  = DI400Y * n400 + DI100Y * n100 + DI4Y * n4 + 365 * n1.
Proof.
  intros H100 H4 H1. unfold days_before_year, DI400Y, DI100Y, DI4Y.
  Z.to_euclidean_division_equations; lia.
Qed.

Lemma is_leap_cycles (n400 n100 n4 n1 : Z) :
  0 <= n100 <= 3 -> 0 <= n4 <= 24 -> 0 <= n1 <= 3 ->
  is_leap (n400 * 400 + 1 + n100 * 100 + n4 * 4 + n1)
  = (n1 =? 3) && (negb (n4 =? 24) || (n100 =? 3)).
Proof.
  intros H100 H4 H1. unfold is_leap.
  destruct (n1 =? 3) eqn:E1; destruct (n4 =? 24) eqn:E4;
    destruct (n100 =? 3) eqn:E100; simpl;
    rewrite ?Z.eqb_eq, ?Z.eqb_neq in *.
  all: match goal with
       | |- ?a && ?b = true => apply andb_true_iff; split;
           [|apply orb_true_iff; rewrite negb_true_iff]
       | |- ?a && ?b = false => apply andb_false_iff; rewrite orb_false_iff, negb_false_iff
       end.
  all: rewrite ?Z.eqb_eq, ?Z.eqb_neq.
  all: try (Z.to_euclidean_division_equations; lia).
Qed.

Lemma below_cases (p : Z -> bool) (n : nat) :
  forallb p (map Z.of_nat (seq 0 n)) = true ->
  forall r, 0 <= r < Z.of_nat n -> p r = true.
Proof.
  intros F r Hr. rewrite forallb_forall in F. apply F.
  apply in_map_iff. exists (Z.to_nat r). split; [lia|].
  apply in_seq. lia.
Qed.

(** The month and the day [ord2ymd] finds for the day [r] of a year,
    counted from 0; the last day of a leap year is dealt with apart. *)
Lemma ord2ymd_month_day (leap : bool) (r : Z) :
  0 <= r < 365 ->
  let month := Z.shiftr (r + 50) 5 in
  let preceding := item DAYS_BEFORE_MONTH month + Z.b2z ((2 <? month) && leap) in
  let md :=
    if r <? preceding then
      (month - 1,
       r - (preceding
            - (item DAYS_IN_MONTH (month - 1)
               + Z.b2z ((month - 1 =? 2) && leap))) + 1)
    else (month, r - preceding + 1) in
  1 <= fst md <= 12
  /\ 1 <= snd md
  /\ snd md <= (if (fst md =? 2) && leap then 29 else item DAYS_IN_MONTH (fst md))
  /\ item DAYS_BEFORE_MONTH (fst md) + Z.b2z ((2 <? fst md) && leap) + snd md
     = r + 1.
Proof.
  intros Hr month preceding md.
  pose proof
    (@below_cases
       (fun r =>
          let month := Z.shiftr (r + 50) 5 in
          let preceding :=
            item DAYS_BEFORE_MONTH month + Z.b2z ((2 <? month) && leap) in
          let md :=
            if r <? preceding then
              (month - 1,
               r - (preceding
                    - (item DAYS_IN_MONTH (month - 1)
                       + Z.b2z ((month - 1 =? 2) && leap))) + 1)
            else (month, r - preceding + 1) in
          (1 <=? fst md) && (fst md <=? 12) && (1 <=? snd md)
          && (snd md <=? (if (fst md =? 2) && leap then 29
                         else item DAYS_IN_MONTH (fst md)))
          && (item DAYS_BEFORE_MONTH (fst md)
              + Z.b2z ((2 <? fst md) && leap) + snd md =? r + 1))
       365 ltac:(destruct leap; vm_compute; reflexivity) r Hr) as H.
  cbv beta zeta in H. fold month in H. fold preceding in H. fold md in H.
  rewrite !andb_true_iff, !Z.leb_le, Z.eqb_eq in H. tauto.
Qed.

(** [ord2ymd] is the inverse of [toordinal] on the ordinals of real dates. *)
Lemma ord2ymd_spec (n : Z) :
  1 <= n <= MAXORDINAL ->
  real_date (ord2ymd n) /\ toordinal (ord2ymd n) = n.
Proof.
  intros Hn. unfold ord2ymd. cbv zeta.
  set (n0 := n - 1).
  set (n400 := n0 / DI400Y). set (r400 := n0 mod DI400Y).
  set (n100 := r400 / DI100Y). set (r100 := r400 mod DI100Y).
  set (n4 := r100 / DI4Y). set (r4 := r100 mod DI4Y).
  set (n1 := r4 / 365). set (r1 := r4 mod 365).
  assert (E400 : n0 = DI400Y * n400 + r400 /\ 0 <= r400 < DI400Y)
    by (split; [apply Z.div_mod | apply Z.mod_pos_bound]; unfold DI400Y; lia).
  assert (E100 : r400 = DI100Y * n100 + r100 /\ 0 <= r100 < DI100Y)
    by (split; [apply Z.div_mod | apply Z.mod_pos_bound]; unfold DI100Y; lia).
  assert (E4 : r100 = DI4Y * n4 + r4 /\ 0 <= r4 < DI4Y)
    by (split; [apply Z.div_mod | apply Z.mod_pos_bound]; unfold DI4Y; lia).
  assert (E1 : r4 = 365 * n1 + r1 /\ 0 <= r1 < 365)
    by (split; [apply Z.div_mod | apply Z.mod_pos_bound]; lia).
  assert (E0 : n0 = n - 1) by reflexivity.
  clearbody n0 n400 r400 n100 r100 n4 r4 n1 r1.
  unfold MAXORDINAL, DI400Y, DI100Y, DI4Y in *.
  destruct E400 as [E400 B400], E100 as [E100 B100],
    E4 as [E4 B4], E1 as [E1 B1].
  assert (Hq : 0 <= n400 <= 24 /\ 0 <= n100 <= 4 /\ 0 <= n4 <= 24 /\ 0 <= n1 <= 4)
    by lia.
  destruct ((n1 =? 4) || (n100 =? 4)) eqn:Elast.
  - (* the last day of a cycle of 4 or of 400 years *)
    apply orb_true_iff in Elast. rewrite !Z.eqb_eq in Elast.
    assert (Ey : exists m100 m4,
               0 <= m100 <= 3 /\ 0 <= m4 <= 24
               /\ (m4 <> 24 \/ m100 = 3)
               /\ n400 * 400 + 1 + n100 * 100 + n4 * 4 + n1 - 1
                  = n400 * 400 + 1 + m100 * 100 + m4 * 4 + 3
               /\ n = 146097 * n400 + 36524 * m100 + 1461 * m4 + 365 * 3 + 366).
    { destruct Elast as [L|L].
      - exists n100, n4. lia.
      - exists 3, 24. lia. }
    destruct Ey as (m100 & m4 & Hm100 & Hm4 & Hleap & -> & Hn').
    assert (Lp : is_leap (n400 * 400 + 1 + m100 * 100 + m4 * 4 + 3) = true).
    { rewrite is_leap_cycles by lia. simpl.
      apply orb_true_iff. rewrite negb_true_iff, Z.eqb_neq, Z.eqb_eq. exact Hleap. }
    unfold real_date, toordinal, ymd2ord, days_in_month, days_before_month.
    cbn [year month day]. rewrite days_before_year_cycles by lia. rewrite Lp.
    unfold MINYEAR, MAXYEAR, DI400Y, DI100Y, DI4Y.
    change (item DAYS_IN_MONTH 12) with 31.
    change (item DAYS_BEFORE_MONTH 12) with 334.
    change (12 =? 2) with false. change (2 <? 12) with true.
    cbn [andb Z.b2z]. lia.
  - apply orb_false_iff in Elast. rewrite !Z.eqb_neq in Elast.
    set (leap := (n1 =? 3) && (negb (n4 =? 24) || (n100 =? 3))).
    pose proof (@ord2ymd_month_day leap r1 B1) as M. cbv zeta in M.
    assert (Lp : is_leap (n400 * 400 + 1 + n100 * 100 + n4 * 4 + n1) = leap)
      by (apply is_leap_cycles; lia).
    assert (Dy : days_before_year (n400 * 400 + 1 + n100 * 100 + n4 * 4 + n1)
                 = 146097 * n400 + 36524 * n100 + 1461 * n4 + 365 * n1)
      by (apply days_before_year_cycles; lia).
    destruct (r1 <? item DAYS_BEFORE_MONTH (Z.shiftr (r1 + 50) 5)
                    + Z.b2z ((2 <? Z.shiftr (r1 + 50) 5) && leap));
      cbn [fst snd] in M;
      unfold real_date, toordinal, ymd2ord, days_in_month, days_before_month;
      cbn [year month day]; rewrite Lp, Dy;
      unfold MINYEAR, MAXYEAR; lia.
Qed.

Lemma date_new_Ok_real (y m d : Z) (c : date) :
  date_new y m d = Ok c -> real_date c /\ c = mkdate y m d.
Proof.
  unfold date_new.
  destruct ((MINYEAR <=? y) && (y <=? MAXYEAR)) eqn:Ey; [|discriminate].
  destruct ((1 <=? m) && (m <=? 12)) eqn:Em; [|discriminate].
  destruct ((1 <=? d) && (d <=? days_in_month y m)) eqn:Ed; [|discriminate].
  simpl. intros H; inversion H; subst.
  apply andb_true_iff in Ey, Em, Ed. rewrite !Z.leb_le in *.
  unfold real_date. simpl. tauto.
Qed.

(** Adding days moves the ordinal by as much, inside the calendar. *)
Lemma add_days_Ok (d c : date) (k : Z) :
  add_days d k = Ok c -> real_date c /\ toordinal c = toordinal d + k.
Proof.
  unfold add_days.
  destruct ((0 <? toordinal d + k) && (toordinal d + k <=? MAXORDINAL)) eqn:E;
    [|discriminate].
  apply andb_true_iff in E as [E1 E2]. apply Z.ltb_lt in E1. apply Z.leb_le in E2.
  intros H; inversion H; subst. apply ord2ymd_spec. lia.
Qed.

(** A date moved off the weekend is the same day, or the Monday that
    follows a Saturday or a Sunday. *)
Lemma _move_to_monday_if_weekend_Ok (d c : date) :
  real_date d ->
  _move_to_monday_if_weekend d = Ok c ->
  real_date c
  /\ toordinal d <= toordinal c <= toordinal d + 2
  /\ weekday c <> 5 /\ weekday c <> 6.
Proof.
  intros Hd. unfold _move_to_monday_if_weekend.
  destruct (weekday d =? 5) eqn:E5; [|destruct (weekday d =? 6) eqn:E6].
  - intros H. apply add_days_Ok in H as [Hc Ho]. apply Z.eqb_eq in E5.
    unfold weekday in *. rewrite Ho. split; [exact Hc|].
    Z.to_euclidean_division_equations; lia.
  - intros H. apply add_days_Ok in H as [Hc Ho]. apply Z.eqb_eq in E6.
    unfold weekday in *. rewrite Ho. split; [exact Hc|].
    Z.to_euclidean_division_equations; lia.
  - intros H; inversion H; subst. apply Z.eqb_neq in E5, E6.
    split; [exact Hd|]. lia.
Qed.

End Calendar.

Section Book.

(** [_get_congrats_date] hands back the book as it received it. *)
Lemma _get_congrats_date_frame (record : Record_) (t : date) (self : AddressBook) :
  snd (_get_congrats_date record t self) = self.
Proof.
  unfold _get_congrats_date, try_replace_year. unfold_py.
  break_match; reflexivity.
Qed.

Lemma _get_congrats_date_state (record : Record_) (t : date)
    (self self' : AddressBook) (r : result (option date)) :
  _get_congrats_date record t self = (r, self') -> self' = self.
Proof.
  intros H. pose proof (_get_congrats_date_frame record t self) as F.
  rewrite H in F. exact F.
Qed.

Lemma upcoming_loop_frame (records : list Record_) (t e : date)
    (acc : list entry) (self : AddressBook) :
  snd (upcoming_loop records t e acc self) = self.
Proof.
  revert acc. induction records as [|record rest IH]; intros acc; simpl.
  - reflexivity.
  - unfold bind.
    destruct (_get_congrats_date record t self) as [r s1] eqn:E.
    apply _get_congrats_date_state in E as ->.
    destruct r as [[c|]|x]; [|apply IH|reflexivity].
    destruct (date_le t c && date_le c e); apply IH.
Qed.

(** A date that [_get_congrats_date] returns is the birthday carried
    into this year or the next, then moved off the weekend. *)
Lemma _get_congrats_date_Some (record : Record_) (t c : date)
    (self self' : AddressBook) :
  _get_congrats_date record t self = (Ok (Some c), self') ->
  exists b bday cand,
    birthday record = Some b /\ to_date b = Ok bday
    /\ (replace_year bday (year t) = Ok cand /\ date_lt cand t = false
        \/ exists earlier,
             replace_year bday (year t) = Ok earlier
             /\ date_lt earlier t = true
             /\ replace_year bday (year t + 1) = Ok cand)
    /\ _move_to_monday_if_weekend cand = Ok c.
Proof.
  unfold _get_congrats_date, try_replace_year. unfold_py.
  destruct (birthday record) as [b|] eqn:Eb; [|discriminate].
  destruct (to_date b) as [bday|x] eqn:Et; [|discriminate].
  destruct (replace_year bday (year t)) as [c0|[m|m]] eqn:E0; try discriminate.
  destruct (date_lt c0 t) eqn:Elt.
  - destruct (replace_year bday (year t + 1)) as [c1|[m|m]] eqn:E1;
      try discriminate.
    destruct (_move_to_monday_if_weekend c1) as [d|x] eqn:Em; [|discriminate].
    intros H; inversion H; subst.
    exists b, bday, c1. repeat split; eauto.
  - destruct (_move_to_monday_if_weekend c0) as [d|x] eqn:Em; [|discriminate].
    intros H; inversion H; subst.
    exists b, bday, c0. repeat split; auto.
Qed.

(** Every entry the loop adds comes from a record whose date passed
    the test of the window. *)
Lemma upcoming_loop_In (records : list Record_) (t e : date) (self : AddressBook) :
  forall (acc es : list entry) (self' : AddressBook) (x : entry),
    upcoming_loop records t e acc self = (Ok es, self') ->
    In x es ->
    In x acc
    \/ exists record c,
         In record records
         /\ _get_congrats_date record t self = (Ok (Some c), self)
         /\ date_le t c = true /\ date_le c e = true
         /\ x = mk_entry record c.
Proof.
  induction records as [|record rest IH]; intros acc es self' x; simpl.
  - unfold ret. intros H; inversion H; subst. auto.
  - unfold bind.
    destruct (_get_congrats_date record t self) as [r s1] eqn:E.
    pose proof (_get_congrats_date_state _ _ _ E) as ->.
    destruct r as [[c|]|ex]; [| |discriminate].
    + destruct (date_le t c && date_le c e) eqn:W; intros H Hin;
        destruct (IH _ _ _ _ H Hin) as [Hacc|(r' & c' & Hr & Hc & Hw)].
      * apply in_app_or in Hacc as [Hacc|[<-|[]]]; [auto|].
        apply andb_true_iff in W as [W1 W2].
        right. exists record, c. simpl. auto 6.
      * right. exists r', c'. simpl. auto.
      * auto.
      * right. exists r', c'. simpl. auto.
    + intros H Hin.
      destruct (IH _ _ _ _ H Hin) as [Hacc|(r' & c' & Hr & Hc & Hw)]; [auto|].
      right. exists r', c'. simpl. auto.
Qed.

(** A record without a congratulation date leaves no trace in the loop. *)
Lemma upcoming_loop_skip (record : Record_) (rest : list Record_)
    (t e : date) (acc : list entry) (self : AddressBook) :
  _get_congrats_date record t self = (Ok None, self) ->
  upcoming_loop (record :: rest) t e acc self = upcoming_loop rest t e acc self.
Proof. intros H. simpl. unfold bind. rewrite H. reflexivity. Qed.

End Book.

Section UpcomingBirthdays.

(** C10: [get_upcoming_birthdays] and [_get_congrats_date] only read.
    The book they hand back, with its mapping from names to records
    and with every record's telephones and birthday, is the book
    they were called on, whether they return or raise. *)
Theorem get_upcoming_birthdays_read_only (clk : clock) (self : AddressBook) :
  snd (get_upcoming_birthdays clk self) = self
  /\ data (snd (get_upcoming_birthdays clk self)) = data self
  /\ forall record t, snd (_get_congrats_date record t self) = self.
Proof.
  assert (H : snd (get_upcoming_birthdays clk self) = self).
  { unfold get_upcoming_birthdays. unfold_py.
    destruct (add_days (today clk) 7); [apply upcoming_loop_frame | reflexivity]. }
  split; [exact H|]. split; [rewrite H; reflexivity|].
  intros record t. apply _get_congrats_date_frame.
Qed.

(** C1, as the specification states it, fails: the method takes no
    date.  Called twice on the same book with the same (empty)
    arguments, it answers differently when the clock of the process
    has moved from 10 March 2024 to 10 April 2024. *)
Lemma get_upcoming_birthdays_follows_clock :
  let book := book_of [contact "Alice" "15.03.1990"] in
  fst (get_upcoming_birthdays (at_date 2024 3 10) book)
  = Ok [mk_entry (contact "Alice" "15.03.1990") (mkdate 2024 3 15)]
  /\ fst (get_upcoming_birthdays (at_date 2024 4 10) book) = Ok []
  /\ fst (get_upcoming_birthdays (at_date 2024 3 10) book)
     <> fst (get_upcoming_birthdays (at_date 2024 4 10) book).
Proof.
  cbv zeta. split; [vm_compute; reflexivity|].
  split; [vm_compute; reflexivity|].
  vm_compute. discriminate.
Qed.

(** C1, amended: the result is determined by the book and by the date
    the clock of the process shows when the method is called.  Two
    calls on the same book under clocks that show the same date
    return the same list, whatever the time of day. *)
Theorem get_upcoming_birthdays_determined_by_clock_date
    (clk1 clk2 : clock) (self : AddressBook) :
  today clk1 = today clk2 ->
  get_upcoming_birthdays clk1 self = get_upcoming_birthdays clk2 self.
Proof.
  intros H. unfold get_upcoming_birthdays. rewrite H. reflexivity.
Qed.

Lemma get_upcoming_birthdays_determined_by_clock_date_witness :
  let book := book_of [contact "Alice" "15.03.1990"] in
  let morning := mkclock (mkdate 2024 3 10) 28800 in
  let evening := mkclock (mkdate 2024 3 10) 75600 in
  today morning = today evening
  /\ get_upcoming_birthdays morning book = get_upcoming_birthdays evening book.
Proof.
  cbv zeta. split; [reflexivity|].
  apply (get_upcoming_birthdays_determined_by_clock_date
           (mkclock (mkdate 2024 3 10) 28800)
           (mkclock (mkdate 2024 3 10) 75600)).
  reflexivity.
Defined.

(** C3: an entry of the list comes from a record of the book whose
    congratulation date, the candidate moved off the weekend, lies
    between today and today plus seven days, both included: it is
    neither a Saturday nor a Sunday, and its ordinal is at most seven
    above today's.  With a
    birthday on 16.03.1990 and the clock on 10 March 2024 the
    candidate is Saturday 16.03.2024, it moves to Monday 18.03.2024,
    the window ends on 17.03.2024, and the record gives no entry. *)
Theorem upcoming_only_within_window :
  (forall (clk : clock) (self self' : AddressBook) (es : list entry) (x : entry),
      get_upcoming_birthdays clk self = (Ok es, self') ->
      In x es ->
      exists record cand c end_day,
        In record (dict_values (data self))
        /\ x = mk_entry record c
        /\ _get_congrats_date record (today clk) self = (Ok (Some c), self)
        /\ _move_to_monday_if_weekend cand = Ok c
        /\ add_days (today clk) 7 = Ok end_day
        /\ date_le (today clk) c = true /\ date_le c end_day = true
        /\ weekday c <> 5 /\ weekday c <> 6
        /\ (real_date (today clk) ->
            toordinal (today clk) <= toordinal c <= toordinal (today clk) + 7))
  /\ (forall (nm : Name) (ps : list Phone) (secs : Z),
        let record := mkRecord nm ps (Some (Field_init (lit "16.03.1990"))) in
        let clk := mkclock (mkdate 2024 3 10) secs in
        to_date (Field_init (lit "16.03.1990")) = Ok (mkdate 1990 3 16)
        /\ replace_year (mkdate 1990 3 16) 2024 = Ok (mkdate 2024 3 16)
        /\ weekday (mkdate 2024 3 16) = 5
        /\ _move_to_monday_if_weekend (mkdate 2024 3 16) = Ok (mkdate 2024 3 18)
        /\ add_days (today clk) 7 = Ok (mkdate 2024 3 17)
        /\ date_le (mkdate 2024 3 18) (mkdate 2024 3 17) = false
        /\ (forall self, _get_congrats_date record (today clk) self
                         = (Ok (Some (mkdate 2024 3 18)), self))
        /\ (forall self rest acc,
              upcoming_loop (record :: rest) (today clk) (mkdate 2024 3 17) acc self
              = upcoming_loop rest (today clk) (mkdate 2024 3 17) acc self)
        /\ get_upcoming_birthdays clk (book_of [record])
           = (Ok [], book_of [record])).
Proof.
  split.
  - intros clk self self' es x. unfold get_upcoming_birthdays. unfold_py.
    destruct (add_days (today clk) 7) as [end_day|ex] eqn:Ee; [|discriminate].
    intros H Hin.
    destruct (@upcoming_loop_In _ _ _ _ _ _ _ _ H Hin)
      as [[]|(record & c & Hr & Hc & Hw1 & Hw2 & ->)].
    destruct (@_get_congrats_date_Some _ _ _ _ _ Hc)
      as (b & bday & cand & _ & _ & Hcand & Hm).
    assert (Rcand : real_date cand).
    { destruct Hcand as [[Hy _]|(earlier & _ & _ & Hy)];
        apply date_new_Ok_real in Hy; tauto. }
    destruct (@_move_to_monday_if_weekend_Ok cand c Rcand Hm)
      as (Rc & _ & Hsat & Hsun).
    destruct (@add_days_Ok _ _ _ Ee) as [Rend Hend].
    exists record, cand, c, end_day.
    do 9 (split; [assumption || reflexivity|]).
    intros Rt. split.
    + apply (proj1 (@date_le_toordinal _ _ Rt Rc) Hw1).
    + rewrite <- Hend. apply (proj1 (@date_le_toordinal _ _ Rc Rend) Hw2).
  - intros nm ps secs record clk.
    do 6 (split; [vm_compute; reflexivity|]).
    split; [intros self; reflexivity|].
    split; [intros self rest acc; reflexivity | reflexivity].
Qed.

Lemma upcoming_only_within_window_witness :
  exists record c end_day,
    In record [contact "Alice" "15.03.1990"; contact "Bob" "16.03.1990"]
    /\ [(lit "name", lit "Alice"); (lit "birthday", lit "15.03.2024")]
       = mk_entry record c
    /\ add_days (mkdate 2024 3 10) 7 = Ok end_day
    /\ date_le (mkdate 2024 3 10) c = true /\ date_le c end_day = true
    /\ toordinal (mkdate 2024 3 10) <= toordinal c
       <= toordinal (mkdate 2024 3 10) + 7.
Proof.
  pose (book := book_of [contact "Alice" "15.03.1990"; contact "Bob" "16.03.1990"]).
  destruct (proj1 upcoming_only_within_window (at_date 2024 3 10) book book
              [[(lit "name", lit "Alice"); (lit "birthday", lit "15.03.2024")]]
              [(lit "name", lit "Alice"); (lit "birthday", lit "15.03.2024")])
    as (record & cand & c & end_day & H1 & H2 & H3 & H4 & H5 & H6 & H7
        & H8 & H9 & H10).
  - vm_compute. reflexivity.
  - simpl. left. reflexivity.
  - exists record, c, end_day. repeat split; try assumption.
    + apply H10. unfold real_date. vm_compute. intuition discriminate.
    + apply H10. unfold real_date. vm_compute. intuition discriminate.
Defined.

(** C4: a record born on 29 February is skipped, with no date in its
    place, when the year of today is not a leap year, and also when
    this year's 29 February is already behind today: the year after
    a leap year has no 29 February either.  Skipped means that
    [_get_congrats_date] returns [None] and that the loop of
    [get_upcoming_birthdays] goes on as if the record were absent. *)
Theorem feb29_skipped (record : Record_) (b : Birthday) (bday t : date) :
  birthday record = Some b ->
  to_date b = Ok bday ->
  month bday = 2 -> day bday = 29 ->
  (is_leap (year t) = false ->
   (exists msg, replace_year bday (year t) = Raise (ValueError msg))
   /\ forall self rest end_day acc,
       _get_congrats_date record t self = (Ok None, self)
       /\ upcoming_loop (record :: rest) t end_day acc self
          = upcoming_loop rest t end_day acc self)
  /\ (forall cand,
       replace_year bday (year t) = Ok cand -> date_lt cand t = true ->
       (exists msg, replace_year bday (year t + 1) = Raise (ValueError msg))
       /\ forall self rest end_day acc,
           _get_congrats_date record t self = (Ok None, self)
           /\ upcoming_loop (record :: rest) t end_day acc self
              = upcoming_loop rest t end_day acc self).
Proof.
  intros Hb Ht Hm Hd. split.
  - intros Hl.
    destruct (@replace_year_feb29_fails bday (year t) Hm Hd Hl) as [msg E].
    split; [eauto|]. intros self rest end_day acc.
    assert (G : _get_congrats_date record t self = (Ok None, self)).
    { unfold _get_congrats_date, try_replace_year. unfold_py.
      rewrite Hb, Ht, E. reflexivity. }
    split; [exact G | apply upcoming_loop_skip, G].
  - intros cand E Hlt.
    destruct (@replace_year_feb29_ok bday cand (year t) Hm Hd E) as [Hl _].
    destruct (@replace_year_feb29_fails bday (year t + 1) Hm Hd
              (@is_leap_next (year t) Hl)) as [msg E1].
    split; [eauto|]. intros self rest end_day acc.
    assert (G : _get_congrats_date record t self = (Ok None, self)).
    { unfold _get_congrats_date, try_replace_year. unfold_py.
      rewrite Hb, Ht, E, Hlt, E1. reflexivity. }
    split; [exact G | apply upcoming_loop_skip, G].
Qed.

Lemma feb29_skipped_witness :
  let record := contact "Eve" "29.02.2000" in
  (forall self, _get_congrats_date record (mkdate 2023 2 25) self = (Ok None, self))
  /\ (forall self, _get_congrats_date record (mkdate 2024 3 1) self = (Ok None, self)).
Proof.
  cbv zeta. split; intros self.
  - refine (proj1 (proj2 (proj1
      (@feb29_skipped (contact "Eve" "29.02.2000")
         (Field_init (lit "29.02.2000")) (mkdate 2000 2 29) (mkdate 2023 2 25)
         _ _ _ _) _) self [] (mkdate 2023 3 4) [])); reflexivity.
  - refine (proj1 (proj2 (proj2
      (@feb29_skipped (contact "Eve" "29.02.2000")
         (Field_init (lit "29.02.2000")) (mkdate 2000 2 29) (mkdate 2024 3 1)
         _ _ _ _) (mkdate 2024 2 29) _ _) self [] (mkdate 2024 3 8) []));
      reflexivity.
Defined.

End UpcomingBirthdays.

Section Telephones.

Lemma Field_eqb_eq (a b : Field) : Field_eqb a b = true <-> value a = value b.
Proof. unfold Field_eqb. apply str_eqb_eq. Qed.

Lemma find_phone_in_None (ps : list Phone) (phone : str) :
  find_phone_in ps phone = None <-> ~ In phone (map value ps).
Proof.
  induction ps as [|p ps IH]; simpl.
  - tauto.
  - destruct (str_eqb (value p) phone) eqn:E.
    + apply str_eqb_eq in E. split; [discriminate | tauto].
    + rewrite IH. split; [|tauto].
      intros H [H1|H1]; [|tauto].
      rewrite H1, str_eqb_refl in E. discriminate.
Qed.



Lemma list_index_first (pre post : list Phone) (p : Phone) :
  ~ In (value p) (map value pre) ->
  list_index (pre ++ p :: post) p = Ok (Z.of_nat (List.length pre)).
Proof.
  induction pre as [|q pre IH]; simpl List.length; simpl app; intros H.
  - simpl. unfold Field_eqb. rewrite str_eqb_refl. reflexivity.
  - simpl in H. simpl list_index. unfold Field_eqb at 1.
    rewrite str_eqb_neq by tauto.
    rewrite IH by tauto. simpl. f_equal. lia.
Qed.

Lemma list_setitem_at (pre post : list Phone) (p q : Phone) :
  list_setitem (pre ++ p :: post) (Z.of_nat (List.length pre)) q
  = Ok (pre ++ q :: post).
Proof.
  induction pre as [|r pre IH]; simpl List.length; simpl app.
  - reflexivity.
  - cbn [list_setitem].
    replace (Z.of_nat (S (List.length pre)) =? 0) with false
      by (symmetry; apply Z.eqb_neq; lia).
    replace (Z.of_nat (S (List.length pre)) - 1)
      with (Z.of_nat (List.length pre)) by lia.
    rewrite IH. reflexivity.
Qed.

Lemma list_remove_first (pre post : list Phone) (p : Phone) :
  ~ In (value p) (map value pre) ->
  list_remove (pre ++ p :: post) p = Ok (pre ++ post).
Proof.
  induction pre as [|q pre IH]; simpl app; intros H.
  - simpl. unfold Field_eqb. rewrite str_eqb_refl. reflexivity.
  - simpl in H. simpl list_remove. unfold Field_eqb at 1.
    rewrite str_eqb_neq by tauto.
    rewrite IH by tauto. reflexivity.
Qed.




Lemma list_remove_Forall (P : Field -> Prop) (l l' : list Field) (x : Field) :
  Forall P l -> list_remove l x = Ok l' -> Forall P l'.
Proof.
  revert l'. induction l as [|y l IH]; simpl; intros l' F; [discriminate|].
  inversion F as [|? ? Py Fl]; subst.
  destruct (Field_eqb y x).
  - intros H; inversion H; subst. exact Fl.
  - unfold rbind. destruct (list_remove l x) as [r|]; [|discriminate].
    intros H; inversion H; subst. constructor; auto.
Qed.

Lemma list_setitem_Forall (P : Field -> Prop) (l l' : list Field) (i : Z)
    (x : Field) :
  Forall P l -> P x -> list_setitem l i x = Ok l' -> Forall P l'.
Proof.
  revert l' i. induction l as [|y l IH]; simpl; intros l' i F Px; [discriminate|].
  inversion F as [|? ? Py Fl]; subst.
  destruct (i =? 0).
  - intros H; inversion H; subst. constructor; auto.
  - unfold rbind. destruct (list_setitem l (i - 1) x) as [r|] eqn:E; [|discriminate].
    intros H; inversion H; subst. constructor; eauto.
Qed.

Lemma Record_init_phones_valid (nm : str) (r : Record_) :
  Record_init nm = Ok r -> phones_valid r.
Proof. intros H; inversion H; subst. constructor. Qed.

Lemma phones_valid_step (self : Record_) (a b : str) :
  phones_valid self ->
  phones_valid (snd (add_phone a self))
  /\ phones_valid (snd (remove_phone a self))
  /\ phones_valid (snd (edit_phone a b self))
  /\ phones_valid (snd (add_birthday a self)).
Proof.
  unfold phones_valid. intros F. repeat split.
  - unfold add_phone. unfold_py.
    destruct (Phone_init a) as [p|] eqn:E; simpl; [|exact F].
    apply Phone_init_inv in E as [-> E].
    apply Forall_app. split; [exact F|]. constructor; [exact E | constructor].
  - unfold remove_phone, find_phone. unfold_py.
    destruct (find_phone_in (phones self) a) as [p|]; simpl; [|exact F].
    destruct (list_remove (phones self) p) as [ps|] eqn:E; simpl; [|exact F].
    eapply list_remove_Forall; eauto.
  - unfold edit_phone, find_phone. unfold_py.
    destruct (find_phone_in (phones self) a) as [p|]; simpl; [|exact F].
    destruct (Phone_init b) as [q|] eqn:E; simpl; [|exact F].
    apply Phone_init_inv in E as [-> E].
    destruct (list_index (phones self) p) as [i|]; simpl; [|exact F].
    destruct (list_setitem (phones self) i (Field_init b)) as [ps|] eqn:E2;
      simpl; [|exact F].
    eapply list_setitem_Forall; eauto. exact E.
  - unfold add_birthday. unfold_py.
    destruct (Birthday_init a); simpl; exact F.
Qed.

(** C8: if every telephone of a record holds ten digits, as
    [str.isdigit] counts them, the same is
    true after [add_phone], [remove_phone], [edit_phone] and
    [add_birthday], whatever their arguments and whether they return
    or raise: an entry only enters the list out of [Phone.__init__].
    A record as [Record.__init__] builds it has the property, and so
    has it after any sequence of these calls. *)
Theorem phones_valid_preserved :
  (forall (self : Record_) (a b : str),
      phones_valid self ->
      phones_valid (snd (add_phone a self))
      /\ phones_valid (snd (remove_phone a self))
      /\ phones_valid (snd (edit_phone a b self))
      /\ phones_valid (snd (add_birthday a self)))
  /\ (forall (nm : str) (r : Record_) (cs : list call),
        Record_init nm = Ok r -> phones_valid (after_calls cs r)).
Proof.
  split; [exact phones_valid_step|].
  intros nm r cs H. apply Record_init_phones_valid in H.
  revert r H. induction cs as [|c cs IH]; intros r H; simpl; [exact H|].
  apply IH.
  destruct c as [a|a|a b|a]; simpl;
    [apply (@phones_valid_step r a [] H)
    |apply (@phones_valid_step r a [] H)
    |apply (@phones_valid_step r a b H)
    |apply (@phones_valid_step r a [] H)].
Qed.

Lemma phones_valid_preserved_witness :
  let self := mkRecord (Field_init (lit "Ann"))
                [Field_init (lit "1111111111")] None in
  phones_valid self
  /\ phones_valid (snd (add_phone (lit "2222222222") self))
  /\ phones (snd (add_phone (lit "2222222222") self))
     = [Field_init (lit "1111111111"); Field_init (lit "2222222222")]
  /\ phones_valid (snd (edit_phone (lit "1111111111") (lit "12345") self)).
Proof.
  cbv zeta.
  assert (H : phones_valid (mkRecord (Field_init (lit "Ann"))
                              [Field_init (lit "1111111111")] None)).
  { repeat constructor. }
  split; [exact H|].
  split; [exact (proj1 (proj1 phones_valid_preserved _ (lit "2222222222") [] H))|].
  split; [reflexivity|].
  exact (proj1 (proj2 (proj2
           (proj1 phones_valid_preserved _ (lit "1111111111") (lit "12345") H)))).
Defined.

(** C8, with "digits" read as the decimal digits 0 to 9: [add_phone]
    on a new record accepts ten superscript twos, and the list then
    holds an entry that is not made of decimal digits. *)
Lemma add_phone_superscript_twos :
  Record_init (lit "Ann") = Ok (mkRecord (Field_init (lit "Ann")) [] None)
  /\ phones_decimal (mkRecord (Field_init (lit "Ann")) [] None)
  /\ add_phone superscript_twos (mkRecord (Field_init (lit "Ann")) [] None)
     = (Ok tt, mkRecord (Field_init (lit "Ann"))
                 [Field_init superscript_twos] None)
  /\ ~ phones_decimal (mkRecord (Field_init (lit "Ann"))
                         [Field_init superscript_twos] None).
Proof.
  split; [reflexivity|]. split; [apply Forall_nil|]. split; [reflexivity|].
  unfold phones_decimal. cbn [phones]. intros F.
  inversion F as [|p ps [_ D] _]; subst.
  inversion D as [|c l H _]; subst.
  unfold ascii_digit in H. lia.
Qed.

End Telephones.

Section Birthdays.

Lemma ascii_digit_cases (c : N) :
  ascii_digit c ->
  (c = 48 \/ c = 49 \/ c = 50 \/ c = 51 \/ c = 52
   \/ c = 53 \/ c = 54 \/ c = 55 \/ c = 56 \/ c = 57)%N.
Proof. unfold ascii_digit. lia. Qed.

Lemma run_day (d1 d2 : N) (R : Re.regex) (rest : str) :
  ascii_digit d1 -> ascii_digit d2 ->
  1 <= 10 * digit_of d1 + digit_of d2 <= 31 ->
  Re.run (Re.Cat Re.re_d (Re.Cat (Re.Chr 46) R)) (d1 :: d2 :: 46%N :: rest)
  = map (fun h : Re.hit =>
           let '(t, g, s') := h in
           (d1 :: d2 :: 46%N :: t, ("d"%string, [d1; d2]) :: g, s'))
        (Re.run R rest).
Proof.
  intros H1 H2 HD.
  destruct (ascii_digit_cases H1) as [->|[->|[->|[->|[->|[->|[->|[->|[->| ->]]]]]]]]];
  destruct (ascii_digit_cases H2) as [->|[->|[->|[->|[->|[->|[->|[->|[->| ->]]]]]]]]];
    unfold digit_of in HD; simpl in HD; try lia.
  all: simpl; rewrite !app_nil_r, map_map; apply map_ext;
    intros [[t g] s']; reflexivity.
Qed.

Lemma run_month (m1 m2 : N) (R : Re.regex) (rest : str) :
  ascii_digit m1 -> ascii_digit m2 ->
  1 <= 10 * digit_of m1 + digit_of m2 <= 12 ->
  Re.run (Re.Cat Re.re_m (Re.Cat (Re.Chr 46) R)) (m1 :: m2 :: 46%N :: rest)
  = map (fun h : Re.hit =>
           let '(t, g, s') := h in
           (m1 :: m2 :: 46%N :: t, ("m"%string, [m1; m2]) :: g, s'))
        (Re.run R rest).
Proof.
  intros H1 H2 HM.
  destruct (ascii_digit_cases H1) as [->|[->|[->|[->|[->|[->|[->|[->|[->| ->]]]]]]]]];
  destruct (ascii_digit_cases H2) as [->|[->|[->|[->|[->|[->|[->|[->|[->| ->]]]]]]]]];
    unfold digit_of in HM; simpl in HM; try lia.
  all: simpl; rewrite !app_nil_r, map_map; apply map_ext;
    intros [[t g] s']; reflexivity.
Qed.

Lemma run_year (y1 y2 y3 y4 : N) :
  Forall ascii_digit [y1; y2; y3; y4] ->
  Re.run Re.re_Y [y1; y2; y3; y4]
  = [([y1; y2; y3; y4], [("Y"%string, [y1; y2; y3; y4])], [])].
Proof.
  intros F.
  inversion F as [|? ? H1 F1]; subst. inversion F1 as [|? ? H2 F2]; subst.
  inversion F2 as [|? ? H3 F3]; subst. inversion F3 as [|? ? H4 _]; subst.
  unfold Re.re_Y. cbn [Re.run Re.one].
  rewrite (ascii_digit_isdecimal H1). cbn [Re.run Re.one flat_map map app].
  rewrite (ascii_digit_isdecimal H2). cbn [Re.run Re.one flat_map map app].
  rewrite (ascii_digit_isdecimal H3). cbn [Re.run Re.one flat_map map app].
  rewrite (ascii_digit_isdecimal H4). reflexivity.
Qed.

(** The pattern of the format finds one way through a strict text. *)
Lemma run_strict (d1 d2 m1 m2 y1 y2 y3 y4 : N) :
  Forall ascii_digit [d1; d2; m1; m2; y1; y2; y3; y4] ->
  1 <= 10 * digit_of d1 + digit_of d2 <= 31 ->
  1 <= 10 * digit_of m1 + digit_of m2 <= 12 ->
  Re.run Re.re_d_m_Y [d1; d2; 46%N; m1; m2; 46%N; y1; y2; y3; y4]
  = [([d1; d2; 46%N; m1; m2; 46%N; y1; y2; y3; y4],
      [("d"%string, [d1; d2]); ("m"%string, [m1; m2]);
       ("Y"%string, [y1; y2; y3; y4])],
      [])].
Proof.
  intros F HD HM.
  inversion F as [|? ? H1 F1]; subst. inversion F1 as [|? ? H2 F2]; subst.
  inversion F2 as [|? ? H3 F3]; subst. inversion F3 as [|? ? H4 F4]; subst.
  unfold Re.re_d_m_Y.
  change (Re.ch ".") with 46%N.
  rewrite (run_day _ _ H1 H2 HD), (run_month _ _ H3 H4 HM), (run_year F4).
  reflexivity.
Qed.

Lemma ascii_digit_not_space (c : N) : ascii_digit c -> N.eqb c space = false.
Proof. unfold ascii_digit, space. intros H. apply N.eqb_neq. lia. Qed.

Lemma int_two_digits (a b : N) :
  ascii_digit a -> ascii_digit b ->
  int [a; b] = Ok (10 * digit_of a + digit_of b).
Proof.
  intros Ha Hb. unfold int, strip. cbn [lstrip].
  rewrite (ascii_digit_not_space Ha). cbn [rev app lstrip].
  rewrite (ascii_digit_not_space Hb). cbn [rev app digits_value].
  rewrite (ascii_digit_value Ha), (ascii_digit_value Hb).
  f_equal; lia.
Qed.

Lemma int_four_digits (a b c d : N) :
  Forall ascii_digit [a; b; c; d] ->
  int [a; b; c; d]
  = Ok (1000 * digit_of a + 100 * digit_of b + 10 * digit_of c + digit_of d).
Proof.
  intros F.
  inversion F as [|? ? Ha F1]; subst. inversion F1 as [|? ? Hb F2]; subst.
  inversion F2 as [|? ? Hc F3]; subst. inversion F3 as [|? ? Hd _]; subst.
  unfold int, strip. cbn [lstrip].
  rewrite (ascii_digit_not_space Ha). cbn [rev app lstrip].
  rewrite (ascii_digit_not_space Hd). cbn [rev app digits_value].
  rewrite (ascii_digit_value Ha), (ascii_digit_value Hb),
    (ascii_digit_value Hc), (ascii_digit_value Hd).
  f_equal; lia.
Qed.

Lemma date_new_real (d : date) :
  real_date d -> date_new (year d) (month d) (day d) = Ok d.
Proof.
  intros (Hy & Hm & Hd). unfold date_new.
  replace ((MINYEAR <=? year d) && (year d <=? MAXYEAR)) with true
    by (symmetry; apply andb_true_iff; split; apply Z.leb_le; lia).
  replace ((1 <=? month d) && (month d <=? 12)) with true
    by (symmetry; apply andb_true_iff; split; apply Z.leb_le; lia).
  replace ((1 <=? day d) && (day d <=? days_in_month (year d) (month d)))
    with true
    by (symmetry; apply andb_true_iff; split; apply Z.leb_le; lia).
  destruct d; reflexivity.
Qed.

Lemma days_in_month_le_31 (y m : Z) : days_in_month y m <= 31.
Proof.
  unfold days_in_month. destruct ((m =? 2) && is_leap y); [lia|].
  unfold item, DAYS_IN_MONTH. generalize (Z.to_nat m). intros n.
  do 13 (destruct n as [|n]; [simpl; lia|]).
  destruct n; simpl; lia.
Qed.

Lemma pad2_digits (a b : N) :
  ascii_digit a -> ascii_digit b ->
  pad2 (10 * digit_of a + digit_of b) = [a; b].
Proof.
  unfold ascii_digit, digit_of, pad2, digit_chr. intros Ha Hb.
  assert (Hq : (10 * (Z.of_N a - 48) + (Z.of_N b - 48)) / 10 = Z.of_N a - 48)
    by (symmetry; apply (Z.div_unique _ 10 _ (Z.of_N b - 48)); lia).
  assert (Hr : (10 * (Z.of_N a - 48) + (Z.of_N b - 48)) mod 10 = Z.of_N b - 48)
    by (symmetry; apply (Z.mod_unique _ 10 (Z.of_N a - 48)); lia).
  rewrite Hq, Hr. f_equal; [lia|]. f_equal. lia.
Qed.

Lemma pad4_digits (a b c d : N) :
  Forall ascii_digit [a; b; c; d] ->
  pad4 (1000 * digit_of a + 100 * digit_of b + 10 * digit_of c + digit_of d)
  = [a; b; c; d].
Proof.
  intros F.
  inversion F as [|? ? Ha F1]; subst. inversion F1 as [|? ? Hb F2]; subst.
  inversion F2 as [|? ? Hc F3]; subst. inversion F3 as [|? ? Hd _]; subst.
  unfold ascii_digit, digit_of, pad4, digit_chr in *.
  set (x := Z.of_N a - 48) in *. set (y := Z.of_N b - 48) in *.
  set (z := Z.of_N c - 48) in *. set (w := Z.of_N d - 48) in *.
  assert (Bx : 0 <= x <= 9) by (subst x; lia).
  assert (By : 0 <= y <= 9) by (subst y; lia).
  assert (Bz : 0 <= z <= 9) by (subst z; lia).
  assert (Bw : 0 <= w <= 9) by (subst w; lia).
  set (v := 1000 * x + 100 * y + 10 * z + w).
  assert (E1 : v / 1000 = x)
    by (symmetry; apply (Z.div_unique _ 1000 _ (100 * y + 10 * z + w));
        subst v; lia).
  assert (E2 : v / 100 = 10 * x + y)
    by (symmetry; apply (Z.div_unique _ 100 _ (10 * z + w)); subst v; lia).
  assert (E3 : v / 10 = 100 * x + 10 * y + z)
    by (symmetry; apply (Z.div_unique _ 10 _ w); subst v; lia).
  assert (E4 : v mod 10 = w)
    by (symmetry; apply (Z.mod_unique _ 10 (100 * x + 10 * y + z));
        subst v; lia).
  assert (E5 : (10 * x + y) mod 10 = y)
    by (symmetry; apply (Z.mod_unique _ 10 x); lia).
  assert (E6 : (100 * x + 10 * y + z) mod 10 = z)
    by (symmetry; apply (Z.mod_unique _ 10 (10 * x + y)); lia).
  rewrite E1, E2, E3, E4, E5, E6. subst x y z w.
  repeat (f_equal; try lia).
Qed.

(** Parsing a strict text of a real date gives that date. *)
Lemma strptime_strict (s : str) (d : date) :
  strict_DD_MM_YYYY s d -> real_date d -> strptime_d_m_Y s = Ok d.
Proof.
  intros Hs Hr. destruct Hs as [d1 d2 m1 m2 y1 y2 y3 y4 F].
  pose proof Hr as (Hy & Hm & Hd). cbn [year month day] in Hy, Hm, Hd.
  pose proof (days_in_month_le_31
                (1000 * digit_of y1 + 100 * digit_of y2
                 + 10 * digit_of y3 + digit_of y4)
                (10 * digit_of m1 + digit_of m2)) as H31.
  unfold strptime_d_m_Y, Re.match_.
  rewrite (run_strict F) by lia.
  inversion F as [|? ? H1 F1]; subst. inversion F1 as [|? ? H2 F2]; subst.
  inversion F2 as [|? ? H3 F3]; subst. inversion F3 as [|? ? H4 F4]; subst.
  cbn [Re.group String.eqb Ascii.eqb Bool.eqb].
  rewrite (int_four_digits F4), (int_two_digits H3 H4), (int_two_digits H1 H2).
  cbn [rbind].
  apply (date_new_real Hr).
Qed.

Lemma year_digits_four (v : Z) : 1000 <= v -> year_digits v = pad4 v.
Proof.
  intros H. unfold year_digits.
  destruct (Z.ltb_spec v 10); [lia|]. destruct (Z.ltb_spec v 100); [lia|].
  destruct (Z.ltb_spec v 1000); [lia|]. reflexivity.
Qed.

Lemma year_digits_short (v : Z) :
  v < 1000 -> (List.length (year_digits v) < 4)%nat.
Proof.
  intros H. unfold year_digits.
  destruct (Z.ltb_spec v 10); [simpl; lia|].
  destruct (Z.ltb_spec v 100); [simpl; lia|].
  destruct (Z.ltb_spec v 1000); [simpl; lia|lia].
Qed.

Lemma strftime_length_short (d : date) :
  year d < 1000 -> (List.length (strftime_d_m_Y d) < 10)%nat.
Proof.
  intros H. apply year_digits_short in H.
  unfold strftime_d_m_Y. rewrite !length_app. simpl. lia.
Qed.

Lemma strftime_strict (s : str) (d : date) :
  strict_DD_MM_YYYY s d -> 1000 <= year d -> strftime_d_m_Y d = s.
Proof.
  intros Hs. destruct Hs as [d1 d2 m1 m2 y1 y2 y3 y4 F]. intros Hy.
  inversion F as [|? ? H1 F1]; subst. inversion F1 as [|? ? H2 F2]; subst.
  inversion F2 as [|? ? H3 F3]; subst. inversion F3 as [|? ? H4 F4]; subst.
  unfold strftime_d_m_Y. cbn [year month day] in *.
  rewrite (year_digits_four Hy).
  rewrite (pad2_digits H1 H2), (pad2_digits H3 H4), (pad4_digits F4).
  reflexivity.
Qed.

Lemma strict_length (s : str) (d : date) :
  strict_DD_MM_YYYY s d -> List.length s = 10%nat.
Proof. intros H. destruct H. reflexivity. Qed.

(** C7: from a text in the strict form DD.MM.YYYY that spells a real
    date, the [Birthday] is built; it keeps the text and [to_date]
    gives the date spelled.  Printing that date with the same format
    gives the text back when the year is 1000 or later, and a
    different, shorter text when it is earlier. *)
Theorem Birthday_roundtrip (s : str) (d : date) :
  strict_DD_MM_YYYY s d -> real_date d ->
  Birthday_init s = Ok (Field_init s)
  /\ Field_str (Field_init s) = s
  /\ to_date (Field_init s) = Ok d
  /\ (1000 <= year d -> strftime_d_m_Y d = s)
  /\ (year d < 1000 -> strftime_d_m_Y d <> s).
Proof.
  intros Hs Hr. pose proof (strptime_strict Hs Hr) as P.
  unfold Birthday_init, to_date. simpl. rewrite P.
  split; [reflexivity|]. split; [reflexivity|]. split; [reflexivity|]. split.
  - apply (strftime_strict Hs).
  - intros Hy E. apply strftime_length_short in Hy.
    rewrite E, (strict_length Hs) in Hy. lia.
Qed.

Lemma Birthday_roundtrip_witness :
  Birthday_init (lit "29.02.2024") = Ok (Field_init (lit "29.02.2024"))
  /\ Field_str (Field_init (lit "29.02.2024")) = lit "29.02.2024"
  /\ to_date (Field_init (lit "29.02.2024")) = Ok (mkdate 2024 2 29)
  /\ strftime_d_m_Y (mkdate 2024 2 29) = lit "29.02.2024".
Proof.
  destruct (@Birthday_roundtrip (lit "29.02.2024") (mkdate 2024 2 29))
    as (A & B & C & D & _).
  - apply (strict_text (d1 := 50) (d2 := 57) (m1 := 48) (m2 := 50)
             (y1 := 50) (y2 := 48) (y3 := 50) (y4 := 52)).
    repeat constructor; unfold ascii_digit; lia.
  - unfold real_date. simpl. vm_compute. intuition discriminate.
  - split; [exact A|]. split; [exact B|]. split; [exact C|].
    apply D. simpl. lia.
Defined.

(** C7 as the specification words it fails for a year before 1000:
    "15.03.0999" is strict and spells a real date, the [Birthday] is
    built and [to_date] gives 15 March 999, but that date is printed
    "15.03.999". *)
Lemma Birthday_year_0999_not_reproduced :
  strict_DD_MM_YYYY (lit "15.03.0999") (mkdate 999 3 15)
  /\ real_date (mkdate 999 3 15)
  /\ Birthday_init (lit "15.03.0999") = Ok (Field_init (lit "15.03.0999"))
  /\ to_date (Field_init (lit "15.03.0999")) = Ok (mkdate 999 3 15)
  /\ strftime_d_m_Y (mkdate 999 3 15) = lit "15.03.999"
  /\ strftime_d_m_Y (mkdate 999 3 15) <> lit "15.03.0999".
Proof.
  split.
  { apply (strict_text (d1 := 49) (d2 := 53) (m1 := 48) (m2 := 51)
             (y1 := 48) (y2 := 57) (y3 := 57) (y4 := 57)).
    repeat constructor; unfold ascii_digit; lia. }
  split; [unfold real_date; vm_compute; intuition discriminate|].
  split; [reflexivity|]. split; [reflexivity|]. split; [reflexivity|].
  discriminate.
Qed.

(** C9: the text "5.3.1990" is not in the strict form, yet the
    [Birthday] is built from it, and it keeps the text as given,
    without the zeros. *)
Theorem Birthday_init_accepts_unpadded :
  (forall d, ~ strict_DD_MM_YYYY (lit "5.3.1990") d)
  /\ Birthday_init (lit "5.3.1990") = Ok (Field_init (lit "5.3.1990"))
  /\ value (Field_init (lit "5.3.1990")) = lit "5.3.1990"
  /\ Field_str (Field_init (lit "5.3.1990")) = lit "5.3.1990"
  /\ to_date (Field_init (lit "5.3.1990")) = Ok (mkdate 1990 3 5)
  /\ strftime_d_m_Y (mkdate 1990 3 5) = lit "05.03.1990".
Proof.
  split.
  - intros d H. inversion H.
  - repeat split; reflexivity.
Qed.

End Birthdays.

(* ================================================================== *)
(** * Further properties of the classes                                *)
(* ================================================================== *)

Section Directory.

Lemma dict_get_None (d : list (str * Record_)) (k : str) :
  dict_get d k = None <-> ~ In k (map fst d).
Proof.
  induction d as [|[k' v'] d IH]; simpl; [tauto|].
  destruct (str_eqb k' k) eqn:E.
  - apply str_eqb_eq in E. split; [discriminate | tauto].
  - rewrite IH. split; [|tauto]. intros H [H1|H1]; [|tauto].
    rewrite H1, str_eqb_refl in E. discriminate.
Qed.

Lemma dict_get_set_same (d : list (str * Record_)) (k : str) (v : Record_) :
  dict_get (dict_set d k v) k = Some v.
Proof.
  induction d as [|[k' v'] d IH]; simpl.
  - rewrite str_eqb_refl. reflexivity.
  - destruct (str_eqb k' k) eqn:E; simpl; rewrite E; [reflexivity | exact IH].
Qed.

Lemma dict_get_set_other (d : list (str * Record_)) (k k0 : str) (v : Record_) :
  k0 <> k -> dict_get (dict_set d k v) k0 = dict_get d k0.
Proof.
  intros Hk. induction d as [|[k' v'] d IH]; simpl.
  - rewrite str_eqb_neq by congruence. reflexivity.
  - destruct (str_eqb k' k) eqn:E; simpl.
    + apply str_eqb_eq in E. subst k'.
      rewrite str_eqb_neq by congruence. reflexivity.
    + rewrite IH. reflexivity.
Qed.

Lemma dict_set_keys (d : list (str * Record_)) (k : str) (v : Record_) :
  (In k (map fst d) -> map fst (dict_set d k v) = map fst d)
  /\ (~ In k (map fst d) -> dict_set d k v = d ++ [(k, v)]).
Proof.
  induction d as [|[k' v'] d [IH1 IH2]]; simpl.
  - tauto.
  - destruct (str_eqb k' k) eqn:E.
    + apply str_eqb_eq in E. subst k'. simpl. tauto.
    + assert (Hn : k' <> k)
        by (intros ->; rewrite str_eqb_refl in E; discriminate).
      simpl. split.
      * intros [H|H]; [contradiction|]. rewrite IH1 by exact H. reflexivity.
      * intros H. rewrite IH2 by tauto. reflexivity.
Qed.

Lemma dict_pop_absent (d : list (str * Record_)) (k : str) :
  ~ In k (map fst d) -> dict_pop d k = d.
Proof.
  induction d as [|[k' v'] d IH]; simpl; [reflexivity|].
  intros H. rewrite str_eqb_neq by tauto. rewrite IH by tauto. reflexivity.
Qed.

Lemma dict_pop_keys (d : list (str * Record_)) (k k0 : str) :
  In k0 (map fst (dict_pop d k)) -> In k0 (map fst d).
Proof.
  induction d as [|[k' v'] d IH]; simpl; [tauto|].
  destruct (str_eqb k' k); simpl; tauto.
Qed.

Lemma dict_get_pop_other (d : list (str * Record_)) (k k0 : str) :
  k0 <> k -> dict_get (dict_pop d k) k0 = dict_get d k0.
Proof.
  intros Hk. induction d as [|[k' v'] d IH]; simpl; [reflexivity|].
  destruct (str_eqb k' k) eqn:E; simpl.
  - apply str_eqb_eq in E. subst k'. rewrite str_eqb_neq by congruence. reflexivity.
  - rewrite IH. reflexivity.
Qed.

Lemma dict_get_pop_same (d : list (str * Record_)) (k : str) :
  NoDup (map fst d) -> dict_get (dict_pop d k) k = None.
Proof.
  induction d as [|[k' v'] d IH]; simpl; [reflexivity|].
  intros N. inversion N as [|? ? Hn N']; subst.
  destruct (str_eqb k' k) eqn:E; simpl.
  - apply str_eqb_eq in E. subst k'. apply dict_get_None. exact Hn.
  - rewrite E. apply IH. exact N'.
Qed.

(** X1: a record filed with [add_record] is the one [find] returns
    for its name, whatever was filed under that name before; the
    other names are found as before; neither call raises. *)
Theorem find_after_add_record (book : AddressBook) (record : Record_) :
  fst (add_record record book) = Ok tt
  /\ fst (find (value (name record)) (snd (add_record record book)))
     = Ok (Some record)
  /\ forall k, k <> value (name record) ->
       fst (find k (snd (add_record record book))) = fst (find k book).
Proof.
  unfold add_record, find. unfold_py. simpl. split; [reflexivity|]. split.
  - rewrite dict_get_set_same. reflexivity.
  - intros k Hk. rewrite dict_get_set_other by exact Hk. reflexivity.
Qed.

Lemma find_after_add_record_witness :
  let book := book_of [contact "Ann" "01.02.1990"; contact "Bob" "03.04.1991"] in
  let ann := contact "Ann" "05.06.1977" in
  fst (find (lit "Ann") (snd (add_record ann book))) = Ok (Some ann)
  /\ fst (find (lit "Bob") (snd (add_record ann book)))
     = Ok (Some (contact "Bob" "03.04.1991")).
Proof.
  cbv zeta.
  destruct (find_after_add_record
              (book_of [contact "Ann" "01.02.1990"; contact "Bob" "03.04.1991"])
              (contact "Ann" "05.06.1977")) as (_ & H1 & H2).
  split; [exact H1|].
  refine (eq_trans (H2 (lit "Bob") _) _); [discriminate | reflexivity].
Defined.

(** X2: [delete] never raises.  In a dictionary (each key once) the
    name is no longer found afterwards, the other names are found as
    before, and deleting a name that is absent leaves the book as it
    was. *)
Theorem delete_spec (book : AddressBook) (nm : str) :
  NoDup (keys book) ->
  fst (delete nm book) = Ok tt
  /\ fst (find nm (snd (delete nm book))) = Ok None
  /\ (forall k, k <> nm ->
        fst (find k (snd (delete nm book))) = fst (find k book))
  /\ (fst (find nm book) = Ok None -> snd (delete nm book) = book).
Proof.
  intros N. unfold delete, find, keys in *. unfold_py. simpl.
  split; [reflexivity|]. split; [|split].
  - rewrite dict_get_pop_same by exact N. reflexivity.
  - intros k Hk. rewrite dict_get_pop_other by exact Hk. reflexivity.
  - intros H. inversion H as [H1]. apply dict_get_None in H1.
    rewrite dict_pop_absent by exact H1. destruct book; reflexivity.
Qed.

Lemma delete_spec_witness :
  let book := book_of [contact "Ann" "01.02.1990"; contact "Bob" "03.04.1991"] in
  fst (find (lit "Ann") (snd (delete (lit "Ann") book))) = Ok None
  /\ fst (find (lit "Bob") (snd (delete (lit "Ann") book)))
     = Ok (Some (contact "Bob" "03.04.1991")).
Proof.
  cbv zeta.
  pose (book := book_of [contact "Ann" "01.02.1990"; contact "Bob" "03.04.1991"]).
  assert (N : NoDup (keys book)).
  { repeat constructor; simpl; intuition discriminate. }
  destruct (@delete_spec book (lit "Ann") N) as (_ & H1 & H2 & _).
  split; [exact H1|].
  refine (eq_trans (H2 (lit "Bob") _) _); [discriminate | reflexivity].
Defined.

Lemma dict_set_names (d : list (str * Record_)) (record : Record_) :
  Forall (fun kv => fst kv = value (name (snd kv))) d ->
  Forall (fun kv => fst kv = value (name (snd kv)))
         (dict_set d (value (name record)) record).
Proof.
  induction d as [|[k' v'] d IH]; simpl; intros F.
  - constructor; [reflexivity | constructor].
  - inversion F as [|? ? Hk F']; subst.
    destruct (str_eqb k' (value (name record))) eqn:E.
    + apply str_eqb_eq in E. constructor; [exact E | exact F'].
    + constructor; [exact Hk | apply IH; exact F'].
Qed.

Lemma dict_set_NoDup (d : list (str * Record_)) (k : str) (v : Record_) :
  NoDup (map fst d) -> NoDup (map fst (dict_set d k v)).
Proof.
  intros N. destruct (in_dec (list_eq_dec N.eq_dec) k (map fst d)) as [H|H].
  - rewrite (proj1 (dict_set_keys d k v) H). exact N.
  - rewrite (proj2 (dict_set_keys d k v) H), map_app. simpl.
    apply NoDup_app; [exact N | repeat constructor; simpl; tauto|].
    intros x Hx [<-|[]]. contradiction.
Qed.

Lemma dict_pop_NoDup (d : list (str * Record_)) (k : str) :
  NoDup (map fst d) -> NoDup (map fst (dict_pop d k)).
Proof.
  induction d as [|[k' v'] d IH]; simpl; intros N; [constructor|].
  inversion N as [|? ? Hn N']; subst.
  destruct (str_eqb k' k); simpl; [exact N'|].
  constructor; [|apply IH; exact N'].
  intros H. apply Hn. eapply dict_pop_keys. exact H.
Qed.

Lemma dict_pop_names (P : str * Record_ -> Prop) (d : list (str * Record_))
    (k : str) :
  Forall P d -> Forall P (dict_pop d k).
Proof.
  induction d as [|[k' v'] d IH]; simpl; intros F; [constructor|].
  inversion F as [|? ? Hk F']; subst.
  destruct (str_eqb k' k); [exact F'|]. constructor; auto.
Qed.

Lemma book_ok_step (c : book_call) (b : AddressBook) :
  book_ok b -> book_ok (snd (do_book_call c b)).
Proof.
  intros [N F]. unfold book_ok, keys in *.
  destruct c as [record|nm]; simpl; split.
  - apply dict_set_NoDup. exact N.
  - apply dict_set_names. exact F.
  - apply dict_pop_NoDup. exact N.
  - apply dict_pop_names. exact F.
Qed.

(** X3: [add_record] and [delete] keep the book a dictionary whose
    every record is filed under its own name; so is any book built
    from the empty one by these calls. *)
Theorem book_ok_preserved :
  (forall (b : AddressBook) (record : Record_) (nm : str),
      book_ok b ->
      book_ok (snd (add_record record b)) /\ book_ok (snd (delete nm b)))
  /\ (forall cs : list book_call, book_ok (after_book_calls cs (mkBook []))).
Proof.
  split.
  - intros b record nm H. split.
    + apply (@book_ok_step (Call_add_record record) b H).
    + apply (@book_ok_step (Call_delete nm) b H).
  - intros cs.
    assert (H : book_ok (mkBook [])) by (split; constructor).
    revert H. generalize (mkBook []).
    induction cs as [|c cs IH]; intros b H; simpl; [exact H|].
    apply IH. apply book_ok_step. exact H.
Qed.

Lemma book_ok_preserved_witness :
  let b := book_of [contact "Ann" "01.02.1990"] in
  book_ok b
  /\ book_ok (snd (add_record (contact "Ann" "05.06.1977") b))
  /\ book_ok (snd (delete (lit "Zed") b)).
Proof.
  cbv zeta.
  assert (H : book_ok (book_of [contact "Ann" "01.02.1990"])).
  { split; repeat constructor. simpl. tauto. }
  split; [exact H|].
  exact (proj1 book_ok_preserved _ (contact "Ann" "05.06.1977") (lit "Zed") H).
Defined.

(** X4: the place of a record in the book.  [add_record] under a name
    the book holds keeps the keys and their order, the new record
    taking the place of the old; under a new name it puts the record
    last; [delete] followed by [add_record] moves the name to the
    end. *)
Theorem add_record_order (book : AddressBook) (record : Record_) :
  let nm := value (name record) in
  (In nm (keys book) -> keys (snd (add_record record book)) = keys book)
  /\ (~ In nm (keys book) ->
      data (snd (add_record record book)) = data book ++ [(nm, record)])
  /\ (NoDup (keys book) ->
      data (snd (add_record record (snd (delete nm book))))
      = dict_pop (data book) nm ++ [(nm, record)]).
Proof.
  cbv zeta. unfold keys, add_record, delete. unfold_py. simpl.
  split; [|split].
  - apply dict_set_keys.
  - apply dict_set_keys.
  - intros N. apply dict_set_keys. apply dict_get_None.
    apply dict_get_pop_same. exact N.
Qed.

Lemma add_record_order_witness :
  let ann := contact "Ann" "01.02.1990" in
  let bob := contact "Bob" "03.04.1991" in
  let ann2 := contact "Ann" "05.06.1977" in
  keys (snd (add_record ann2 (book_of [ann; bob]))) = [lit "Ann"; lit "Bob"]
  /\ data (snd (add_record bob (book_of [ann])))
     = [(lit "Ann", ann); (lit "Bob", bob)]
  /\ data (snd (add_record ann2 (snd (delete (lit "Ann") (book_of [ann; bob])))))
     = [(lit "Bob", bob); (lit "Ann", ann2)].
Proof.
  cbv zeta. split; [|split].
  - apply (proj1 (add_record_order
                    (book_of [contact "Ann" "01.02.1990"; contact "Bob" "03.04.1991"])
                    (contact "Ann" "05.06.1977"))).
    simpl. left. reflexivity.
  - apply (proj1 (proj2 (add_record_order
                    (book_of [contact "Ann" "01.02.1990"])
                    (contact "Bob" "03.04.1991")))).
    simpl. intros [H|[]]. discriminate H.
  - apply (proj2 (proj2 (add_record_order
                    (book_of [contact "Ann" "01.02.1990"; contact "Bob" "03.04.1991"])
                    (contact "Ann" "05.06.1977")))).
    repeat constructor; simpl; intuition discriminate.
Defined.

End Directory.

Section RecordCalls.

Lemma Field_eta (p : Field) : p = Field_init (value p).
Proof. destruct p; reflexivity. Qed.

Lemma set_phones_same (self : Record_) : set_phones (phones self) self = self.
Proof. destruct self; reflexivity. Qed.

Lemma Phone_init_bad (s : str) :
  ~ ten_digits s ->
  Phone_init s = Raise (ValueError "Phone number must contain exactly 10 digits.").
Proof.
  intros H. unfold Phone_init.
  destruct (isdigit s && (len s =? 10)) eqn:E; [|reflexivity].
  apply phone_test_spec in E. contradiction.
Qed.

Lemma find_phone_in_Some (ps : list Phone) (phone : str) (p : Phone) :
  find_phone_in ps phone = Some p ->
  exists pre post,
    ps = pre ++ p :: post /\ value p = phone /\ ~ In phone (map value pre).
Proof.
  induction ps as [|q ps IH]; simpl; [discriminate|].
  destruct (str_eqb (value q) phone) eqn:E.
  - intros H; inversion H; subst. apply str_eqb_eq in E.
    exists [], ps. simpl. tauto.
  - intros H. destruct (IH H) as (pre & post & -> & Hp & Hn).
    exists (q :: pre), post. simpl. repeat split; auto.
    intros [H1|H1]; [|contradiction].
    rewrite H1, str_eqb_refl in E. discriminate.
Qed.

Lemma find_phone_in_app_other (ps qs : list Phone) (phone : str) :
  ~ In phone (map value qs) ->
  find_phone_in (ps ++ qs) phone = find_phone_in ps phone.
Proof.
  intros H. induction ps as [|q ps IH]; simpl.
  - apply find_phone_in_None. exact H.
  - destruct (str_eqb (value q) phone); [reflexivity | exact IH].
Qed.

Lemma find_phone_in_app_new (ps : list Phone) (phone : str) :
  find_phone_in (ps ++ [Field_init phone]) phone = Some (Field_init phone).
Proof.
  induction ps as [|q ps IH]; simpl.
  - rewrite str_eqb_refl. reflexivity.
  - destruct (str_eqb (value q) phone) eqn:E; [|exact IH].
    apply str_eqb_eq in E. rewrite (Field_eta q), E. reflexivity.
Qed.



(** X6: after [add_phone] of a number of ten digits the record holds
    one entry more, the new one last; [find_phone] finds the number,
    and finds or misses every other number as before. *)
Theorem find_phone_after_add_phone (self : Record_) (phone : str) :
  ten_digits phone ->
  add_phone phone self
  = (Ok tt, set_phones (phones self ++ [Field_init phone]) self)
  /\ fst (find_phone phone (snd (add_phone phone self)))
     = Ok (Some (Field_init phone))
  /\ forall q, q <> phone ->
       fst (find_phone q (snd (add_phone phone self))) = fst (find_phone q self).
Proof.
  intros H.
  assert (E : add_phone phone self
              = (Ok tt, set_phones (phones self ++ [Field_init phone]) self)).
  { unfold add_phone. unfold_py. rewrite Phone_init_ok by exact H. reflexivity. }
  rewrite E. split; [reflexivity|]. unfold find_phone. unfold_py. simpl.
  split.
  - rewrite find_phone_in_app_new. reflexivity.
  - intros q Hq. rewrite find_phone_in_app_other; [reflexivity|].
    simpl. intros [H1|[]]. congruence.
Qed.

Lemma find_phone_after_add_phone_witness :
  let self := mkRecord (Field_init (lit "Ann")) [Field_init (lit "1111111111")] None in
  ten_digits (lit "2222222222")
  /\ fst (find_phone (lit "2222222222") (snd (add_phone (lit "2222222222") self)))
     = Ok (Some (Field_init (lit "2222222222"))).
Proof.
  cbv zeta.
  assert (H : ten_digits (lit "2222222222")) by (split; repeat constructor).
  split; [exact H|].
  exact (proj1 (proj2 (find_phone_after_add_phone
                         (mkRecord (Field_init (lit "Ann"))
                            [Field_init (lit "1111111111")] None) H))).
Defined.



(** X8: [edit_phone] checks the new number before it touches the
    list: when the record holds [old_phone] and [new_phone] has not
    ten digits, the error of [Phone] is raised and the record is as
    before. *)
Theorem edit_phone_invalid_new (self : Record_) (old_phone new_phone : str) :
  In old_phone (map value (phones self)) ->
  ~ ten_digits new_phone ->
  edit_phone old_phone new_phone self
  = (Raise (ValueError "Phone number must contain exactly 10 digits."), self).
Proof.
  intros Hin Hbad. unfold edit_phone, find_phone. unfold_py.
  destruct (find_phone_in (phones self) old_phone) as [p|] eqn:E.
  - rewrite Phone_init_bad by exact Hbad. reflexivity.
  - apply find_phone_in_None in E. contradiction.
Qed.

Lemma edit_phone_invalid_new_witness :
  let self := mkRecord (Field_init (lit "Ann")) [Field_init (lit "1111111111")] None in
  edit_phone (lit "1111111111") (lit "12345") self
  = (Raise (ValueError "Phone number must contain exactly 10 digits."), self).
Proof.
  cbv zeta. apply edit_phone_invalid_new.
  - simpl. left. reflexivity.
  - intros [H _]. discriminate H.
Defined.

Lemma int_raises (s : str) (e : exn) :
  int s = Raise e -> exists msg, e = ValueError msg.
Proof.
  unfold int. destruct (strip s) as [|c s']; [intros H; inversion H; eauto|].
  destruct (digits_value 0 (c :: s')); intros H; inversion H; eauto.
Qed.

Lemma date_new_raises (y m d : Z) (e : exn) :
  date_new y m d = Raise e -> exists msg, e = ValueError msg.
Proof.
  unfold date_new. break_match; intros H; inversion H; eauto.
Qed.

(** The parser raises nothing but [ValueError]. *)
Lemma strptime_raises (s : str) (e : exn) :
  strptime_d_m_Y s = Raise e -> exists msg, e = ValueError msg.
Proof.
  unfold strptime_d_m_Y.
  destruct (Re.match_ Re.re_d_m_Y s) as [[[t g] rest]|];
    [|intros H; inversion H; eauto].
  destruct rest; [|intros H; inversion H; eauto].
  unfold rbind.
  destruct (int (Re.group g "Y")) as [y|e1] eqn:E1;
    [|intros H; inversion H; subst; eapply int_raises; eauto].
  destruct (int (Re.group g "m")) as [m|e2] eqn:E2;
    [|intros H; inversion H; subst; eapply int_raises; eauto].
  destruct (int (Re.group g "d")) as [d|e3] eqn:E3;
    [|intros H; inversion H; subst; eapply int_raises; eauto].
  apply date_new_raises.
Qed.

Lemma remove_phone_returns (r : Record_) (phone : str) :
  fst (remove_phone phone r) = Ok tt.
Proof.
  unfold remove_phone, find_phone. unfold_py.
  destruct (find_phone_in (phones r) phone) as [p|] eqn:E; [|reflexivity].
  destruct (find_phone_in_Some _ _ E) as (pre & post & Hs & Hp & Hn).
  subst phone.
  assert (R : list_remove (phones r) p = Ok (pre ++ post))
    by (rewrite Hs; apply list_remove_first; exact Hn).
  rewrite R. reflexivity.
Qed.

(** X9: a call on a record that raises has changed nothing, and what
    it raises is one of the three errors of the classes: the calls
    into the list ([index], [remove], item assignment) never fail. *)
Theorem record_calls_all_or_nothing (c : call) (r : Record_) (e : exn) :
  fst (do_call c r) = Raise e ->
  snd (do_call c r) = r
  /\ (e = ValueError "Phone number must contain exactly 10 digits."
      \/ e = ValueError "Old phone number not found."
      \/ e = ValueError "Invalid date format. Please use DD.MM.YYYY").
Proof.
  destruct c as [a|a|a b|a]; simpl.
  - unfold add_phone, Phone_init. unfold_py.
    destruct (isdigit a && (len a =? 10)); simpl; [intros H; discriminate H|].
    intros H; inversion H; auto.
  - rewrite remove_phone_returns. intros H; discriminate H.
  - unfold edit_phone, find_phone. unfold_py.
    destruct (find_phone_in (phones r) a) as [p|] eqn:E.
    + destruct (find_phone_in_Some _ _ E) as (pre & post & Hs & Hp & Hn).
      subst a. unfold Phone_init.
      destruct (isdigit b && (len b =? 10)); simpl.
      * assert (I : list_index (phones r) p = Ok (Z.of_nat (List.length pre)))
          by (rewrite Hs; apply list_index_first; exact Hn).
        rewrite I.
        assert (S : list_setitem (phones r) (Z.of_nat (List.length pre))
                      (Field_init b) = Ok (pre ++ Field_init b :: post))
          by (rewrite Hs; apply list_setitem_at).
        rewrite S. simpl. intros H; discriminate H.
      * intros H; inversion H; auto.
    + simpl. intros H; inversion H; auto.
  - unfold add_birthday, Birthday_init. unfold_py.
    destruct (strptime_d_m_Y a) as [d|[m|m]] eqn:E; simpl;
      intros H; inversion H; auto.
    apply strptime_raises in E as [msg E]. discriminate E.
Qed.

Lemma record_calls_all_or_nothing_witness :
  let self := mkRecord (Field_init (lit "Ann")) [Field_init (lit "1111111111")] None in
  snd (do_call (Call_add_birthday (lit "31.02.2020")) self) = self.
Proof.
  cbv zeta.
  apply (@record_calls_all_or_nothing (Call_add_birthday (lit "31.02.2020"))
           (mkRecord (Field_init (lit "Ann")) [Field_init (lit "1111111111")] None)
           (ValueError "Invalid date format. Please use DD.MM.YYYY")).
  reflexivity.
Defined.

End RecordCalls.

Section BirthdayTexts.

(** What the parser returns is a date of the calendar. *)
Lemma strptime_Ok_real (s : str) (d : date) :
  strptime_d_m_Y s = Ok d -> real_date d.
Proof.
  unfold strptime_d_m_Y.
  destruct (Re.match_ Re.re_d_m_Y s) as [[[t g] rest]|]; [|discriminate].
  destruct rest; [|discriminate]. unfold rbind.
  destruct (int (Re.group g "Y")); [|discriminate].
  destruct (int (Re.group g "m")); [|discriminate].
  destruct (int (Re.group g "d")); [|discriminate].
  intros H. apply date_new_Ok_real in H. tauto.
Qed.

(** X10: [Birthday.__init__] either keeps the text as given, and then
    [to_date] succeeds on it with a date of the calendar, or raises
    the [ValueError] of the class; it raises nothing else. *)
Theorem Birthday_init_outcome (s : str) :
  (exists d, Birthday_init s = Ok (Field_init s)
             /\ to_date (Field_init s) = Ok d /\ real_date d)
  \/ Birthday_init s
     = Raise (ValueError "Invalid date format. Please use DD.MM.YYYY").
Proof.
  unfold Birthday_init, to_date. simpl.
  destruct (strptime_d_m_Y s) as [d|e] eqn:E.
  - left. exists d. split; [reflexivity|]. split; [reflexivity|].
    exact (@strptime_Ok_real s d E).
  - right. apply strptime_raises in E as [msg ->]. reflexivity.
Qed.

Lemma call_keeps_birthday (c : call) (r : Record_) :
  (exists b, c = Call_add_birthday b) \/ birthday (snd (do_call c r)) = birthday r.
Proof.
  destruct c as [a|a|a b|a]; simpl; [right|right|right|left; eauto].
  - unfold add_phone. unfold_py. destruct (Phone_init a); reflexivity.
  - unfold remove_phone, find_phone. unfold_py.
    destruct (find_phone_in (phones r) a) as [p|]; [|reflexivity].
    destruct (list_remove (phones r) p); reflexivity.
  - unfold edit_phone, find_phone. unfold_py.
    destruct (find_phone_in (phones r) a) as [p|]; [|reflexivity].
    destruct (Phone_init b) as [q|]; [|reflexivity].
    destruct (list_index (phones r) p) as [i|]; [|reflexivity].
    destruct (list_setitem (phones r) i q); reflexivity.
Qed.

Lemma birthday_valid_step (c : call) (r : Record_) :
  birthday_valid r -> birthday_valid (snd (do_call c r)).
Proof.
  intros H. destruct (call_keeps_birthday c r) as [[b ->]|E].
  - simpl. unfold add_birthday, Birthday_init. unfold_py.
    destruct (strptime_d_m_Y b) as [d|[m|m]] eqn:E; simpl; try exact H.
    unfold birthday_valid, to_date. simpl. exists d.
    split; [exact E | exact (@strptime_Ok_real b d E)].
  - unfold birthday_valid in *. rewrite E. exact H.
Qed.

(** X11: the birthday of a record, when it has one, is a text that
    [to_date] turns into a date of the calendar: this holds of a new
    record and is kept by every call on it, so [to_date] never raises
    on a record that was only changed through its methods. *)
Theorem birthday_valid_preserved :
  (forall (c : call) (r : Record_),
      birthday_valid r -> birthday_valid (snd (do_call c r)))
  /\ (forall (nm : str) (r : Record_) (cs : list call),
        Record_init nm = Ok r -> birthday_valid (after_calls cs r)).
Proof.
  split; [exact birthday_valid_step|].
  intros nm r cs H. assert (V : birthday_valid r) by (inversion H; exact I).
  clear H. revert r V. induction cs as [|c cs IH]; intros r V; simpl; [exact V|].
  apply IH, birthday_valid_step, V.
Qed.

Lemma birthday_valid_preserved_witness :
  birthday_valid (snd (do_call (Call_add_birthday (lit "5.3.1990"))
                          (contact "Ann" "01.02.1990"))).
Proof.
  apply (proj1 birthday_valid_preserved).
  exists (mkdate 1990 2 1). split; [reflexivity|].
  unfold real_date. vm_compute. intuition discriminate.
Defined.

Lemma one_hit (p : N -> bool) (s t rest : str) (g : Re.groups) :
  In (t, g, rest) (Re.one p s) -> s = t ++ rest /\ List.length t = 1%nat.
Proof.
  unfold Re.one. destruct s as [|c s']; [intros []|].
  destruct (p c); [|intros []]. intros [H|[]]. inversion H; subst. auto.
Qed.

(** A way of matching takes a prefix of the input, of a length the
    pattern allows. *)
Lemma run_hit (r : Re.regex) :
  forall (s t rest : str) (g : Re.groups),
    In (t, g, rest) (Re.run r s) ->
    s = t ++ rest /\ (min_len r <= List.length t <= max_len r)%nat.
Proof.
  induction r as [c|lo hi| |r1 IH1 r2 IH2|r1 IH1 r2 IH2|nm r IH];
    intros s t rest g; simpl.
  - intros H. apply one_hit in H as [H1 H2]. split; [exact H1 | lia].
  - intros H. apply one_hit in H as [H1 H2]. split; [exact H1 | lia].
  - intros H. apply one_hit in H as [H1 H2]. split; [exact H1 | lia].
  - intros H. apply in_flat_map in H as ([[t1 g1] s1] & H1 & H2).
    apply in_map_iff in H2 as ([[t2 g2] s2] & E & H2).
    inversion E; subst.
    apply IH1 in H1 as [-> L1]. apply IH2 in H2 as [-> L2].
    rewrite <- app_assoc, length_app. split; [reflexivity | lia].
  - intros H. apply in_app_or in H as [H|H];
      [apply IH1 in H | apply IH2 in H]; destruct H as [H L];
      (split; [exact H | lia]).
  - intros H. apply in_map_iff in H as ([[t' g'] s'] & E & H).
    inversion E; subst. apply IH in H. exact H.
Qed.

(** X12: a text that [Birthday.__init__] accepts has 8 to 10
    characters; shorter and longer texts raise. *)
Theorem Birthday_text_length (s : str) (b : Birthday) :
  Birthday_init s = Ok b ->
  b = Field_init s /\ (8 <= List.length s <= 10)%nat.
Proof.
  unfold Birthday_init, strptime_d_m_Y, Re.match_.
  destruct (Re.run Re.re_d_m_Y s) as [|[[t g] rest] hs] eqn:E; [discriminate|].
  assert (H : In (t, g, rest) (Re.run Re.re_d_m_Y s)) by (rewrite E; left; reflexivity).
  apply run_hit in H as [Hs HL]. simpl in HL.
  destruct rest as [|c rest].
  - rewrite app_nil_r in Hs. subst t.
    destruct (_ <-! int (Re.group g "Y") ;; _) as [d|[m|m]];
      intros X; inversion X. auto.
  - discriminate.
Qed.

Lemma Birthday_text_length_witness :
  (8 <= List.length (lit " 5.3.1990") <= 10)%nat.
Proof.
  apply (@Birthday_text_length (lit " 5.3.1990") (Field_init (lit " 5.3.1990"))).
  reflexivity.
Defined.

Lemma digit_chr_digit (v : Z) :
  0 <= v <= 9 -> ascii_digit (digit_chr v) /\ digit_of (digit_chr v) = v.
Proof. unfold ascii_digit, digit_of, digit_chr. lia. Qed.

(** What [strftime] prints for a date of the calendar is a strict
    text of that date. *)
Lemma strftime_is_strict (d : date) :
  real_date d -> 1000 <= year d -> strict_DD_MM_YYYY (strftime_d_m_Y d) d.
Proof.
  intros (Hy & Hm & Hd) Hk.
  pose proof (days_in_month_le_31 (year d) (month d)) as H31.
  unfold MINYEAR, MAXYEAR in Hy.
  destruct d as [Y M D]. cbn [year month day] in *.
  unfold strftime_d_m_Y. cbn [year month day].
  rewrite (year_digits_four Hk). unfold pad2, pad4.
  change (lit ".") with [46%N]. cbn [app].
  destruct (@digit_chr_digit (D / 10)) as [A1 V1];
    [Z.to_euclidean_division_equations; lia|].
  destruct (@digit_chr_digit (D mod 10)) as [A2 V2];
    [Z.to_euclidean_division_equations; lia|].
  destruct (@digit_chr_digit (M / 10)) as [A3 V3];
    [Z.to_euclidean_division_equations; lia|].
  destruct (@digit_chr_digit (M mod 10)) as [A4 V4];
    [Z.to_euclidean_division_equations; lia|].
  destruct (@digit_chr_digit (Y / 1000)) as [A5 V5];
    [Z.to_euclidean_division_equations; lia|].
  destruct (@digit_chr_digit ((Y / 100) mod 10)) as [A6 V6];
    [Z.to_euclidean_division_equations; lia|].
  destruct (@digit_chr_digit ((Y / 10) mod 10)) as [A7 V7];
    [Z.to_euclidean_division_equations; lia|].
  destruct (@digit_chr_digit (Y mod 10)) as [A8 V8];
    [Z.to_euclidean_division_equations; lia|].
  assert (F : Forall ascii_digit
                [digit_chr (D / 10); digit_chr (D mod 10);
                 digit_chr (M / 10); digit_chr (M mod 10);
                 digit_chr (Y / 1000); digit_chr ((Y / 100) mod 10);
                 digit_chr ((Y / 10) mod 10); digit_chr (Y mod 10)])
    by (repeat (apply Forall_cons; [assumption|]); apply Forall_nil).
  pose proof (strict_text F) as S.
  rewrite V1, V2, V3, V4, V5, V6, V7, V8 in S.
  replace (1000 * (Y / 1000) + 100 * ((Y / 100) mod 10)
           + 10 * ((Y / 10) mod 10) + Y mod 10) with Y in S
    by (Z.to_euclidean_division_equations; lia).
  replace (10 * (M / 10) + M mod 10) with M in S
    by (Z.to_euclidean_division_equations; lia).
  replace (10 * (D / 10) + D mod 10) with D in S
    by (Z.to_euclidean_division_equations; lia).
  exact S.
Qed.

Lemma run_year_short (ys : str) :
  (List.length ys < 4)%nat -> Re.run Re.re_Y ys = [].
Proof.
  intros H. unfold Re.re_Y.
  destruct ys as [|a [|b [|c [|e l]]]]; [| | | |simpl in H; lia];
    cbn [Re.run Re.one flat_map map app];
    repeat (match goal with
            | |- context [if chr_isdecimal ?x then _ else _] =>
                destruct (chr_isdecimal x)
            end; cbn [Re.run Re.one flat_map map app]);
    reflexivity.
Qed.

(** The text printed for a date before the year 1000 has too few
    digits of the year for the pattern of the format. *)
Lemma strptime_strftime_short (d : date) :
  real_date d -> year d < 1000 ->
  strptime_d_m_Y (strftime_d_m_Y d)
  = Raise (ValueError "time data does not match format").
Proof.
  intros (Hy & Hm & Hd) Hk.
  pose proof (days_in_month_le_31 (year d) (month d)) as H31.
  pose proof (@year_digits_short (year d) Hk) as Hl.
  destruct d as [Y M D]. cbn [year month day] in *.
  unfold strftime_d_m_Y. cbn [year month day]. unfold pad2.
  change (lit ".") with [46%N]. cbn [app].
  destruct (@digit_chr_digit (D / 10)) as [A1 V1];
    [Z.to_euclidean_division_equations; lia|].
  destruct (@digit_chr_digit (D mod 10)) as [A2 V2];
    [Z.to_euclidean_division_equations; lia|].
  destruct (@digit_chr_digit (M / 10)) as [A3 V3];
    [Z.to_euclidean_division_equations; lia|].
  destruct (@digit_chr_digit (M mod 10)) as [A4 V4];
    [Z.to_euclidean_division_equations; lia|].
  unfold strptime_d_m_Y, Re.match_, Re.re_d_m_Y.
  change (Re.ch ".") with 46%N.
  rewrite (@run_day _ _ _ _ A1 A2)
    by (rewrite V1, V2; Z.to_euclidean_division_equations; lia).
  rewrite (@run_month _ _ _ _ A3 A4)
    by (rewrite V3, V4; Z.to_euclidean_division_equations; lia).
  rewrite (run_year_short _ Hl). reflexivity.
Qed.

(** X13: the text [get_upcoming_birthdays] prints for a date of the
    year 1000 or later has ten characters, [Birthday] accepts it and
    [to_date] reads the same date out of it.  The text printed for an
    earlier date is shorter, and [Birthday] refuses it. *)
Theorem strftime_then_Birthday (d : date) :
  real_date d ->
  (1000 <= year d ->
   Birthday_init (strftime_d_m_Y d) = Ok (Field_init (strftime_d_m_Y d))
   /\ to_date (Field_init (strftime_d_m_Y d)) = Ok d
   /\ List.length (strftime_d_m_Y d) = 10%nat)
  /\ (year d < 1000 ->
      Birthday_init (strftime_d_m_Y d)
      = Raise (ValueError "Invalid date format. Please use DD.MM.YYYY")
      /\ (List.length (strftime_d_m_Y d) < 10)%nat).
Proof.
  intros H. split; intros Hk.
  - pose proof (@strftime_is_strict d H Hk) as S.
    pose proof (@strptime_strict _ _ S H) as P.
    unfold Birthday_init, to_date. simpl value. rewrite P.
    split; [reflexivity|]. split; [reflexivity|]. exact (strict_length S).
  - split; [|exact (strftime_length_short _ Hk)].
    unfold Birthday_init. rewrite (strptime_strftime_short H Hk). reflexivity.
Qed.

Lemma strftime_then_Birthday_witness :
  to_date (Field_init (strftime_d_m_Y (mkdate 2024 3 18))) = Ok (mkdate 2024 3 18)
  /\ Birthday_init (strftime_d_m_Y (mkdate 999 3 15))
     = Raise (ValueError "Invalid date format. Please use DD.MM.YYYY").
Proof.
  split.
  - apply (@strftime_then_Birthday (mkdate 2024 3 18)).
    + unfold real_date. vm_compute. intuition discriminate.
    + simpl. lia.
  - apply (@strftime_then_Birthday (mkdate 999 3 15)).
    + unfold real_date. vm_compute. intuition discriminate.
    + simpl. lia.
Defined.

End BirthdayTexts.

Section Congratulations.

Lemma toordinal_range (d : date) :
  real_date d -> 1 <= toordinal d <= MAXORDINAL.
Proof.
  intros H. pose proof (@toordinal_in_year d H) as B.
  destruct H as ((Hy1 & Hy2) & _). unfold MINYEAR, MAXYEAR in *.
  pose proof (@days_before_year_mono 1 (year d) ltac:(lia)) as L.
  pose proof (@days_before_year_mono (year d + 1) 10000 ltac:(lia)) as U.
  change (days_before_year 1) with 0 in L.
  change (days_before_year 10000) with MAXORDINAL in U. lia.
Qed.

(** Two days after a Saturday, or one after a Sunday, the calendar has
    not ended. *)
Lemma weekend_not_last (d : date) :
  real_date d ->
  (weekday d = 5 -> exists c, add_days d 2 = Ok c)
  /\ (weekday d = 6 -> exists c, add_days d 1 = Ok c).
Proof.
  intros H. pose proof (@toordinal_range d H) as R.
  unfold add_days, weekday, MAXORDINAL in *. split; intros W.
  - replace ((0 <? toordinal d + 2) && (toordinal d + 2 <=? 3652059)) with true;
      [eauto|].
    symmetry. apply andb_true_iff. rewrite Z.ltb_lt, Z.leb_le.
    Z.to_euclidean_division_equations; lia.
  - replace ((0 <? toordinal d + 1) && (toordinal d + 1 <=? 3652059)) with true;
      [eauto|].
    symmetry. apply andb_true_iff. rewrite Z.ltb_lt, Z.leb_le.
    Z.to_euclidean_division_equations; lia.
Qed.

Lemma move_to_monday_returns (d : date) :
  real_date d -> exists c, _move_to_monday_if_weekend d = Ok c.
Proof.
  intros H. destruct (@weekend_not_last d H) as [H5 H6].
  unfold _move_to_monday_if_weekend.
  destruct (weekday d =? 5) eqn:E5; [apply H5, Z.eqb_eq, E5|].
  destruct (weekday d =? 6) eqn:E6; [apply H6, Z.eqb_eq, E6|]. eauto.
Qed.

(** X14: on a date of the calendar [_move_to_monday_if_weekend] never
    fails, not even in the last days of the year 9999.  It returns a
    day from Monday to Friday: the date itself when it is one, the
    Monday two days after a Saturday, one day after a Sunday. *)
Theorem move_to_monday_total (d : date) :
  real_date d ->
  exists c,
    _move_to_monday_if_weekend d = Ok c
    /\ real_date c
    /\ 0 <= weekday c <= 4
    /\ (weekday d <= 4 /\ c = d
        \/ weekday d = 5 /\ weekday c = 0 /\ toordinal c = toordinal d + 2
        \/ weekday d = 6 /\ weekday c = 0 /\ toordinal c = toordinal d + 1).
Proof.
  intros H. destruct (@weekend_not_last d H) as [H5 H6].
  assert (W : 0 <= weekday d <= 6)
    by (unfold weekday; Z.to_euclidean_division_equations; lia).
  unfold _move_to_monday_if_weekend.
  destruct (weekday d =? 5) eqn:E5; [|destruct (weekday d =? 6) eqn:E6].
  - apply Z.eqb_eq in E5. destruct (H5 E5) as [c A]. rewrite A.
    destruct (@add_days_Ok _ _ _ A) as [Rc Oc]. exists c.
    split; [reflexivity|]. split; [exact Rc|].
    unfold weekday in *. rewrite Oc.
    split; [Z.to_euclidean_division_equations; lia|].
    right. left. split; [exact E5|].
    split; [Z.to_euclidean_division_equations; lia | reflexivity].
  - apply Z.eqb_eq in E6. destruct (H6 E6) as [c A]. rewrite A.
    destruct (@add_days_Ok _ _ _ A) as [Rc Oc]. exists c.
    split; [reflexivity|]. split; [exact Rc|].
    unfold weekday in *. rewrite Oc.
    split; [Z.to_euclidean_division_equations; lia|].
    right. right. split; [exact E6|].
    split; [Z.to_euclidean_division_equations; lia | reflexivity].
  - apply Z.eqb_neq in E5, E6. exists d.
    split; [reflexivity|]. split; [exact H|]. split; [lia|].
    left. split; [lia | reflexivity].
Qed.

Lemma move_to_monday_total_witness :
  exists c, _move_to_monday_if_weekend (mkdate 9999 12 25) = Ok c
            /\ 0 <= weekday c <= 4.
Proof.
  destruct (@move_to_monday_total (mkdate 9999 12 25)) as (c & H1 & _ & H3 & _).
  - unfold real_date. vm_compute. intuition discriminate.
  - exists c. split; assumption.
Defined.

Lemma replace_year_Ok (bday cand : date) (y : Z) :
  replace_year bday y = Ok cand ->
  real_date cand /\ cand = mkdate y (month bday) (day bday).
Proof. unfold replace_year. apply date_new_Ok_real. Qed.

Lemma date_lt_false (a b : date) : date_lt a b = false -> date_le b a = true.
Proof.
  intros H. unfold date_le. apply orb_true_iff.
  destruct (date_trichotomy a b) as [H1|[H1|H1]].
  - congruence.
  - right. apply date_eqb_eq. congruence.
  - left. exact H1.
Qed.

Lemma congrats_facts (record : Record_) (t c : date)
    (self self' : AddressBook) :
  real_date t ->
  _get_congrats_date record t self = (Ok (Some c), self') ->
  exists b bday cand,
    birthday record = Some b /\ to_date b = Ok bday
    /\ month cand = month bday /\ day cand = day bday
    /\ (year cand = year t
        \/ year cand = year t + 1
           /\ date_lt (mkdate (year t) (month bday) (day bday)) t = true)
    /\ toordinal t <= toordinal cand <= toordinal c
    /\ toordinal c <= toordinal cand + 2
    /\ 0 <= weekday c <= 4
    /\ date_le t c = true.
Proof.
  intros Rt H.
  destruct (@_get_congrats_date_Some _ _ _ _ _ H)
    as (b & bday & cand & Hb & Hd & Hcand & Hm).
  assert (Rcand : real_date cand /\ month cand = month bday
                  /\ day cand = day bday
                  /\ (year cand = year t
                      \/ year cand = year t + 1
                         /\ date_lt (mkdate (year t) (month bday) (day bday)) t
                            = true)
                  /\ toordinal t <= toordinal cand).
  { destruct Hcand as [[Hy Hlt]|(earlier & He & Hlt & Hy)].
    - apply replace_year_Ok in Hy as [Rc ->]. cbn [year month day].
      repeat split; try apply Rc; auto.
      apply date_lt_false in Hlt.
      apply (proj1 (@date_le_toordinal _ _ Rt Rc) Hlt).
    - apply replace_year_Ok in Hy as [Rc ->].
      apply replace_year_Ok in He as [_ ->]. cbn [year month day].
      repeat split; try apply Rc; auto.
      assert (L : date_lt t (mkdate (year t + 1) (month bday) (day bday)) = true).
      { unfold date_lt. cbn [year]. apply orb_true_iff. left.
        apply Z.ltb_lt. lia. }
      pose proof (@date_lt_toordinal _ _ Rt Rc L). lia. }
  destruct Rcand as (Rc & Hmo & Hda & Hyr & Hord).
  destruct (@_move_to_monday_if_weekend_Ok cand c Rc Hm) as (Rcc & Hs & W5 & W6).
  assert (W : 0 <= weekday c <= 6)
    by (unfold weekday; Z.to_euclidean_division_equations; lia).
  exists b, bday, cand. repeat split; try assumption; try lia.
  apply (@date_le_toordinal _ _ Rt Rcc). lia.
Qed.

(** X15: a congratulation date is never before today.  It is the next
    return of the birthday's day and month, this year or, when that is
    already behind, next year, moved by at most two days to fall on a
    day from Monday to Friday. *)
Theorem congrats_not_before_today (record : Record_) (t c : date)
    (self self' : AddressBook) :
  real_date t ->
  _get_congrats_date record t self = (Ok (Some c), self') ->
  exists b bday cand,
    birthday record = Some b /\ to_date b = Ok bday
    /\ month cand = month bday /\ day cand = day bday
    /\ (year cand = year t
        \/ year cand = year t + 1
           /\ date_lt (mkdate (year t) (month bday) (day bday)) t = true)
    /\ toordinal t <= toordinal cand <= toordinal c
    /\ toordinal c <= toordinal cand + 2
    /\ 0 <= weekday c <= 4
    /\ date_le t c = true.
Proof. apply congrats_facts. Qed.

Lemma congrats_not_before_today_witness :
  exists cand,
    toordinal (mkdate 2024 3 10) <= toordinal cand <= toordinal (mkdate 2024 3 18)
    /\ toordinal (mkdate 2024 3 18) <= toordinal cand + 2.
Proof.
  destruct (@congrats_not_before_today (contact "Bob" "16.03.1990")
              (mkdate 2024 3 10) (mkdate 2024 3 18) (mkBook []) (mkBook []))
    as (b & bday & cand & _ & _ & _ & _ & _ & H1 & H2 & _).
  - unfold real_date. vm_compute. intuition discriminate.
  - reflexivity.
  - exists cand. split; assumption.
Defined.

Lemma replace_year_defined (bday : date) (y : Z) :
  real_date bday ->
  ~ (month bday = 2 /\ day bday = 29) ->
  MINYEAR <= y <= MAXYEAR ->
  replace_year bday y = Ok (mkdate y (month bday) (day bday)).
Proof.
  intros (_ & Hm & Hd) Hn Hy. unfold replace_year.
  apply (@date_new_real (mkdate y (month bday) (day bday))).
  unfold real_date. cbn [year month day]. repeat split; try lia.
  revert Hd. unfold days_in_month.
  destruct (month bday =? 2) eqn:E; cbn [andb]; [|lia].
  apply Z.eqb_eq in E. rewrite E.
  change (item DAYS_IN_MONTH 2) with 28.
  destruct (is_leap (year bday)); destruct (is_leap y); lia.
Qed.

(** X16: only a birthday on 29 February is ever skipped.  For any
    other birthday, and today before the year 9999, a congratulation
    date exists. *)
Theorem congrats_defined (record : Record_) (b : Birthday) (bday t : date) :
  birthday record = Some b ->
  to_date b = Ok bday ->
  ~ (month bday = 2 /\ day bday = 29) ->
  real_date t -> year t < MAXYEAR ->
  exists c, forall self, _get_congrats_date record t self = (Ok (Some c), self).
Proof.
  intros Hb Hd Hn Rt Hy.
  assert (Rb : real_date bday) by (apply (@strptime_Ok_real (value b)); exact Hd).
  pose proof Rt as ((Hy1 & _) & _). unfold MINYEAR, MAXYEAR in *.
  pose proof (@replace_year_defined bday (year t) Rb Hn ltac:(unfold MINYEAR, MAXYEAR; lia)) as E0.
  pose proof (@replace_year_defined bday (year t + 1) Rb Hn ltac:(unfold MINYEAR, MAXYEAR; lia)) as E1.
  destruct (date_lt (mkdate (year t) (month bday) (day bday)) t) eqn:L.
  - destruct (@move_to_monday_returns (mkdate (year t + 1) (month bday) (day bday)))
      as (c & Hc).
    { apply replace_year_Ok in E1. tauto. }
    exists c. intros self.
    unfold _get_congrats_date, try_replace_year. unfold_py.
    rewrite Hb, Hd, E0, L, E1, Hc. reflexivity.
  - destruct (@move_to_monday_returns (mkdate (year t) (month bday) (day bday)))
      as (c & Hc).
    { apply replace_year_Ok in E0. tauto. }
    exists c. intros self.
    unfold _get_congrats_date, try_replace_year. unfold_py.
    rewrite Hb, Hd, E0, L, Hc. reflexivity.
Qed.

Lemma congrats_defined_witness :
  exists c, forall self,
    _get_congrats_date (contact "Ann" "31.12.1990") (mkdate 2024 3 10) self
    = (Ok (Some c), self).
Proof.
  apply (@congrats_defined (contact "Ann" "31.12.1990")
           (Field_init (lit "31.12.1990")) (mkdate 1990 12 31) (mkdate 2024 3 10)).
  - reflexivity.
  - reflexivity.
  - simpl. intros [H _]. discriminate H.
  - unfold real_date. vm_compute. intuition discriminate.
  - reflexivity.
Defined.

(** On a record whose birthday parses, [_get_congrats_date] returns. *)
Lemma _get_congrats_date_total (record : Record_) (t : date) :
  birthday_valid record -> real_date t ->
  exists oc, forall self, _get_congrats_date record t self = (Ok oc, self).
Proof.
  intros V Rt. unfold birthday_valid in V.
  unfold _get_congrats_date, try_replace_year. unfold_py.
  destruct (birthday record) as [b|]; [|exists None; reflexivity].
  destruct V as (bday & Hd & Rb). rewrite Hd.
  assert (S : forall y cand, replace_year bday y = Ok cand ->
                exists c, _move_to_monday_if_weekend cand = Ok c).
  { intros y cand H. apply replace_year_Ok in H as [Rc _].
    apply move_to_monday_returns. exact Rc. }
  destruct (replace_year bday (year t)) as [c0|e0] eqn:E0.
  - destruct (date_lt c0 t).
    + destruct (replace_year bday (year t + 1)) as [c1|e1] eqn:E1.
      * destruct (S _ _ E1) as [c Hc]. rewrite Hc. exists (Some c). reflexivity.
      * apply date_new_raises in E1 as [msg ->]. exists None. reflexivity.
    + destruct (S _ _ E0) as [c Hc]. rewrite Hc. exists (Some c). reflexivity.
  - apply date_new_raises in E0 as [msg ->]. exists None. reflexivity.
Qed.

Lemma upcoming_loop_exact (records : list Record_) (t e : date)
    (self : AddressBook) :
  (forall r, In r records ->
     exists oc, _get_congrats_date r t self = (Ok oc, self)) ->
  forall acc,
    upcoming_loop records t e acc self
    = (Ok (acc ++ flat_map (window_entry t e self) records), self).
Proof.
  induction records as [|record rest IH]; intros Hall acc; simpl.
  - unfold ret. rewrite app_nil_r. reflexivity.
  - destruct (Hall record (or_introl eq_refl)) as [oc Hoc].
    unfold bind, window_entry. rewrite Hoc. cbn [fst].
    assert (Hrest : forall r, In r rest ->
              exists oc, _get_congrats_date r t self = (Ok oc, self))
      by (intros r Hr; apply Hall; right; exact Hr).
    destruct oc as [c|]; [|rewrite (IH Hrest); reflexivity].
    destruct (date_le t c && date_le c e); rewrite (IH Hrest).
    + rewrite <- app_assoc. reflexivity.
    + reflexivity.
Qed.

Lemma upcoming_loop_returns (records : list Record_) (t e : date)
    (self : AddressBook) :
  forall acc es self',
    upcoming_loop records t e acc self = (Ok es, self') ->
    forall r, In r records ->
      exists oc, _get_congrats_date r t self = (Ok oc, self).
Proof.
  induction records as [|record rest IH]; intros acc es self' H r; simpl;
    [intros []|].
  simpl in H. unfold bind in H.
  destruct (_get_congrats_date record t self) as [res s1] eqn:E.
  pose proof (_get_congrats_date_state _ _ _ E) as ->.
  destruct res as [oc|ex]; [|discriminate].
  intros [<-|Hr]; [eauto|].
  destruct oc as [c|]; [destruct (date_le t c && date_le c e)|];
    eapply IH; eauto.
Qed.

(** X17: whenever [get_upcoming_birthdays] returns, its list is made
    of the entries of the records within the window, at most one for
    each, in the order of the book; the book is as before. *)
Theorem get_upcoming_birthdays_exact (clk : clock) (self self' : AddressBook)
    (es : list entry) :
  get_upcoming_birthdays clk self = (Ok es, self') ->
  exists end_day,
    add_days (today clk) 7 = Ok end_day
    /\ es = flat_map (window_entry (today clk) end_day self)
                     (dict_values (data self))
    /\ (List.length es <= List.length (data self))%nat
    /\ self' = self.
Proof.
  unfold get_upcoming_birthdays. unfold_py.
  destruct (add_days (today clk) 7) as [end_day|] eqn:He; [|discriminate].
  intros H. exists end_day. split; [reflexivity|].
  pose proof (@upcoming_loop_returns _ _ _ _ _ _ _ H) as Hall.
  rewrite (@upcoming_loop_exact _ _ end_day _ Hall []) in H.
  inversion H; subst. cbn [app]. repeat split.
  unfold dict_values. generalize (data self'). intros d.
  induction d as [|kv d IH]; simpl; [lia|].
  rewrite length_app. unfold window_entry at 1.
  destruct (fst (_get_congrats_date (snd kv) (today clk) self')) as [[c|]|];
    [destruct (date_le (today clk) c && date_le c end_day)| |]; simpl; lia.
Qed.

Lemma get_upcoming_birthdays_exact_witness :
  let book := book_of [contact "Bob" "16.03.1990"; contact "Alice" "15.03.1990";
                       contact "Eve" "11.03.2001"] in
  [mk_entry (contact "Alice" "15.03.1990") (mkdate 2024 3 15);
   mk_entry (contact "Eve" "11.03.2001") (mkdate 2024 3 11)]
  = flat_map (window_entry (mkdate 2024 3 10) (mkdate 2024 3 17) book)
             (dict_values (data book)).
Proof.
  cbv zeta.
  destruct (@get_upcoming_birthdays_exact (at_date 2024 3 10)
              (book_of [contact "Bob" "16.03.1990"; contact "Alice" "15.03.1990";
                        contact "Eve" "11.03.2001"])
              (book_of [contact "Bob" "16.03.1990"; contact "Alice" "15.03.1990";
                        contact "Eve" "11.03.2001"])
              [mk_entry (contact "Alice" "15.03.1990") (mkdate 2024 3 15);
               mk_entry (contact "Eve" "11.03.2001") (mkdate 2024 3 11)])
    as (end_day & H1 & H2 & _).
  - reflexivity.
  - inversion H1; subst. exact H2.
Defined.

(** X18: [get_upcoming_birthdays] returns, and leaves the book as it
    was, whenever the clock shows a date at least a week before the
    end of the year 9999 and the birthdays of the book parse, as those
    set by [add_birthday] do. *)
Theorem get_upcoming_birthdays_total (clk : clock) (self : AddressBook) :
  real_date (today clk) ->
  toordinal (today clk) + 7 <= MAXORDINAL ->
  Forall birthday_valid (dict_values (data self)) ->
  exists es, get_upcoming_birthdays clk self = (Ok es, self).
Proof.
  intros Rt Hmax V.
  pose proof (@toordinal_range _ Rt) as R.
  assert (He : add_days (today clk) 7 = Ok (ord2ymd (toordinal (today clk) + 7))).
  { unfold add_days.
    replace ((0 <? toordinal (today clk) + 7)
             && (toordinal (today clk) + 7 <=? MAXORDINAL)) with true;
      [reflexivity|].
    symmetry. apply andb_true_iff. rewrite Z.ltb_lt, Z.leb_le. lia. }
  eexists. unfold get_upcoming_birthdays. unfold_py. rewrite He.
  apply upcoming_loop_exact.
  intros r Hr. rewrite Forall_forall in V.
  destruct (@_get_congrats_date_total r (today clk) (V r Hr) Rt) as [oc H].
  exists oc. apply H.
Qed.

Lemma get_upcoming_birthdays_total_witness :
  exists es,
    get_upcoming_birthdays (at_date 2024 3 10)
      (book_of [contact "Eve" "29.02.2000"; contact "Bob" "16.03.1990"])
    = (Ok es, book_of [contact "Eve" "29.02.2000"; contact "Bob" "16.03.1990"]).
Proof.
  apply get_upcoming_birthdays_total.
  - unfold real_date. vm_compute. intuition discriminate.
  - vm_compute. discriminate.
  - repeat constructor.
    + exists (mkdate 2000 2 29). split; [reflexivity|].
      unfold real_date. vm_compute. intuition discriminate.
    + exists (mkdate 1990 3 16). split; [reflexivity|].
      unfold real_date. vm_compute. intuition discriminate.
Defined.






End Congratulations.

Section Listing.

Lemma dict_get_In (d : list (str * Record_)) (k : str) (r : Record_) :
  dict_get d k = Some r -> In (k, r) d.
Proof.
  induction d as [|[k' v'] d IH]; simpl; [discriminate|].
  destruct (str_eqb k' k) eqn:E.
  - apply str_eqb_eq in E. intros H; inversion H; subst. left. reflexivity.
  - intros H. right. apply IH, H.
Qed.

(** X21: in a book whose records are filed under their names, the
    record [find] returns bears the name asked for, and [find]
    returns [None] exactly for the names that are not keys. *)
Theorem find_returns_named (book : AddressBook) (nm : str) :
  book_ok book ->
  (forall r, fst (find nm book) = Ok (Some r) ->
     value (name r) = nm /\ In (nm, r) (data book))
  /\ (fst (find nm book) = Ok None <-> ~ In nm (keys book)).
Proof.
  intros [_ F]. unfold find, keys. unfold_py. simpl. split.
  - intros r H. inversion H as [H1]. apply dict_get_In in H1.
    split; [|exact H1]. rewrite Forall_forall in F.
    symmetry. apply (F _ H1).
  - rewrite <- dict_get_None. split; [intros H; inversion H; reflexivity|].
    intros ->. reflexivity.
Qed.

Lemma find_returns_named_witness :
  let book := book_of [contact "Ann" "01.02.1990"; contact "Bob" "03.04.1991"] in
  value (name (contact "Bob" "03.04.1991")) = lit "Bob"
  /\ In (lit "Bob", contact "Bob" "03.04.1991") (data book)
  /\ fst (find (lit "Zed") book) = Ok None.
Proof.
  cbv zeta.
  assert (Hok : book_ok (book_of [contact "Ann" "01.02.1990";
                                  contact "Bob" "03.04.1991"]))
    by (split; repeat constructor; simpl; intuition discriminate).
  destruct (proj1 (@find_returns_named _ (lit "Bob") Hok)
              (contact "Bob" "03.04.1991") eq_refl) as [H1 H2].
  split; [exact H1|]. split; [exact H2|].
  apply (proj2 (@find_returns_named _ (lit "Zed") Hok)).
  simpl. intros [H|[H|[]]]; discriminate H.
Defined.

Lemma window_entry_names (t e : date) (self : AddressBook) (rs : list Record_) :
  forall x,
    In x (map (fun en => entry_get en (lit "name"))
              (flat_map (window_entry t e self) rs)) ->
    In x (map (fun r => Some (value (name r))) rs).
Proof.
  induction rs as [|r rs IH]; simpl; [tauto|].
  intros x. rewrite map_app, in_app_iff. intros [H|H]; [|right; apply IH, H].
  left. unfold window_entry in H.
  destruct (fst (_get_congrats_date r t self)) as [[c|]|]; try contradiction.
  destruct (date_le t c && date_le c e); [|contradiction].
  destruct H as [H|[]]. rewrite <- H. reflexivity.
Qed.

Lemma window_entry_NoDup (t e : date) (self : AddressBook) (rs : list Record_) :
  NoDup (map (fun r => value (name r)) rs) ->
  NoDup (map (fun en => entry_get en (lit "name"))
             (flat_map (window_entry t e self) rs)).
Proof.
  induction rs as [|r rs IH]; simpl; intros N; [constructor|].
  inversion N as [|? ? Hn N']; subst. rewrite map_app.
  assert (Hfresh : ~ In (Some (value (name r)))
                     (map (fun en => entry_get en (lit "name"))
                          (flat_map (window_entry t e self) rs))).
  { intros H. apply window_entry_names in H. apply in_map_iff in H.
    destruct H as (r' & E & H). inversion E as [E']. apply Hn.
    rewrite <- E'. apply (in_map (fun r => value (name r))). exact H. }
  unfold window_entry at 1.
  destruct (fst (_get_congrats_date r t self)) as [[c|]|]; simpl; auto.
  destruct (date_le t c && date_le c e); simpl; auto.
  constructor; auto.
Qed.

(** X22: in a book whose records are filed under their names, no name
    comes twice in the list of [get_upcoming_birthdays], and every
    name in it is a key of the book. *)
Theorem upcoming_names_distinct (clk : clock) (self self' : AddressBook)
    (es : list entry) :
  book_ok self ->
  get_upcoming_birthdays clk self = (Ok es, self') ->
  NoDup (map (fun en => entry_get en (lit "name")) es)
  /\ forall en, In en es ->
       exists nm, entry_get en (lit "name") = Some nm /\ In nm (keys self).
Proof.
  intros [N F]. unfold get_upcoming_birthdays. unfold_py.
  destruct (add_days (today clk) 7) as [end_day|] eqn:He; [|discriminate].
  intros H.
  pose proof (@upcoming_loop_returns _ _ _ _ _ _ _ H) as Hall.
  rewrite (@upcoming_loop_exact _ _ end_day _ Hall []) in H.
  inversion H; subst. cbn [app].
  assert (K : map (fun r => value (name r)) (dict_values (data self'))
              = keys self').
  { unfold keys, dict_values. rewrite map_map. apply map_ext_in.
    intros kv Hkv. rewrite Forall_forall in F. symmetry. apply F, Hkv. }
  split.
  - apply window_entry_NoDup. rewrite K. exact N.
  - intros en Hen.
    assert (Hx : In (entry_get en (lit "name"))
                   (map (fun r => Some (value (name r)))
                        (dict_values (data self')))).
    { apply (@window_entry_names (today clk) end_day self').
      apply (in_map (fun en => entry_get en (lit "name"))). exact Hen. }
    apply in_map_iff in Hx as (r & E & Hr).
    exists (value (name r)). split; [symmetry; exact E|].
    rewrite <- K. apply (in_map (fun r => value (name r))). exact Hr.
Qed.

Lemma upcoming_names_distinct_witness :
  NoDup (map (fun en => entry_get en (lit "name"))
             [mk_entry (contact "Alice" "15.03.1990") (mkdate 2024 3 15);
              mk_entry (contact "Eve" "11.03.2001") (mkdate 2024 3 11)]).
Proof.
  apply (@upcoming_names_distinct (at_date 2024 3 10)
           (book_of [contact "Bob" "16.03.1990"; contact "Alice" "15.03.1990";
                     contact "Eve" "11.03.2001"])
           (book_of [contact "Bob" "16.03.1990"; contact "Alice" "15.03.1990";
                     contact "Eve" "11.03.2001"])).
  - split; repeat constructor; simpl; intuition discriminate.
  - reflexivity.
Defined.

Lemma join_head (sep x : str) (l : list str) (c : N) (x' : str) :
  x = c :: x' -> exists tl, join sep (x :: l) = c :: tl.
Proof.
  intros ->. destruct l as [|y l]; simpl; eauto.
Qed.

(** X23: the text of a book is "No contacts saved." when the book is
    empty and only then: the text of a book with records begins with
    "Contact name: ". *)
Theorem AddressBook_str_empty (self : AddressBook) :
  AddressBook_str self = lit "No contacts saved." <-> data self = [].
Proof.
  unfold AddressBook_str. split.
  - destruct (data self) as [|[k r] d]; [reflexivity|].
    simpl map.
    destruct (@join_head newline (Record_str r) (map Record_str (dict_values d))
                67%N (lit "ontact name: " ++ value (name r) ++ lit ", phones: "
                      ++ match phones r with
                         | [] => lit "-"
                         | _ :: _ => join (lit "; ") (map value (phones r))
                         end
                      ++ lit ", birthday: "
                      ++ match birthday r with
                         | Some b => Field_str b
                         | None => lit "-"
                         end) eq_refl) as [tl E].
    unfold dict_values in *. simpl in E. simpl. rewrite E. discriminate.
  - intros ->. reflexivity.
Qed.

Lemma AddressBook_str_empty_witness :
  AddressBook_str (mkBook []) = lit "No contacts saved."
  /\ data (mkBook []) = [].
Proof.
  split; [|reflexivity].
  apply (proj2 (AddressBook_str_empty (mkBook []))). reflexivity.
Defined.

End Listing.

(* ================================================================== *)
(** * Properties of the command handlers                               *)
(* ================================================================== *)

Section Handlers.

Lemma dict_set_same_value (d : list (str * Record_)) (k : str) (r : Record_) :
  dict_get d k = Some r -> dict_set d k r = d.
Proof.
  induction d as [|[k' v'] d IH]; simpl; [discriminate|].
  destruct (str_eqb k' k) eqn:E.
  - intros H; inversion H; reflexivity.
  - intros H. rewrite (IH H). reflexivity.
Qed.

Lemma book_eta (book : AddressBook) : mkBook (data book) = book.
Proof. destruct book; reflexivity. Qed.

Lemma dict_set_set (d : list (str * Record_)) (k : str) (v w : Record_) :
  dict_set (dict_set d k v) k w = dict_set d k w.
Proof.
  induction d as [|[k' v'] d IH]; simpl.
  - rewrite str_eqb_refl. reflexivity.
  - destruct (str_eqb k' k) eqn:E; simpl; rewrite E; [reflexivity|].
    rewrite IH. reflexivity.
Qed.

(** What "add" does with a name and a number, by what the name is in
    the book and what [add_phone] makes of the number. *)
Lemma add_contact_run (book : AddressBook) (nm phone : str) :
  let r := match dict_get (data book) nm with
           | Some r => r
           | None => mkRecord (Field_init nm) [] None
           end in
  Main.add_contact [nm; phone] book
  = (Ok (match fst (add_phone phone r) with
         | Ok _ => lit "Contact added"
         | Raise _ => lit "Phone number must contain exactly 10 digits."
         end),
     mkBook (dict_set (data book) nm (snd (add_phone phone r)))).
Proof.
  cbv zeta.
  unfold Main.add_contact, Main.input_error, Main.add_contact_def,
    Main.hbind, Main.hret, Main.core, Main.on_record, find, add_record,
    Record_init, Name_init.
  unfold_py. cbn [data name value Field_init fst snd].
  destruct (dict_get (data book) nm) as [r|] eqn:Hg.
  - rewrite Hg. destruct (add_phone phone r) as [[u|e] r'] eqn:Ea; cbn [fst snd].
    + reflexivity.
    + revert Ea. unfold add_phone, Phone_init. unfold_py.
      destruct (isdigit phone && (len phone =? 10)); simpl;
        intros X; inversion X; subst; reflexivity.
  - cbn [data]. rewrite dict_get_set_same.
    destruct (add_phone phone (mkRecord (Field_init nm) [] None))
      as [[u|e] r'] eqn:Ea; cbn [fst snd data]; rewrite dict_set_set.
    + reflexivity.
    + revert Ea. unfold add_phone, Phone_init. unfold_py.
      destruct (isdigit phone && (len phone =? 10)); simpl;
        intros X; inversion X; subst; reflexivity.
Qed.

(** X24: "add" with a name and a number of ten digits answers
    "Contact added".  A name the book does not hold gets a new record,
    filed last, with this one number; a name it holds keeps its place
    and its record gets the number appended. *)
Theorem add_contact_valid (book : AddressBook) (nm phone : str) :
  ten_digits phone ->
  (~ In nm (keys book) ->
   Main.add_contact [nm; phone] book
   = (Ok (lit "Contact added"),
      mkBook (data book
              ++ [(nm, mkRecord (Field_init nm) [Field_init phone] None)])))
  /\ (forall r, dict_get (data book) nm = Some r ->
        Main.add_contact [nm; phone] book
        = (Ok (lit "Contact added"),
           mkBook (dict_set (data book) nm
                     (set_phones (phones r ++ [Field_init phone]) r)))).
Proof.
  intros Hp.
  assert (A : forall r, add_phone phone r
                        = (Ok tt, set_phones (phones r ++ [Field_init phone]) r)).
  { intros r. unfold add_phone. unfold_py. rewrite Phone_init_ok by exact Hp.
    reflexivity. }
  pose proof (add_contact_run book nm phone) as R. cbv zeta in R. split.
  - intros Hn. pose proof Hn as Hg. apply dict_get_None in Hg.
    rewrite Hg, A in R. rewrite R. cbn [fst snd].
    rewrite (proj2 (dict_set_keys (data book) nm _) Hn). reflexivity.
  - intros r Hg. rewrite Hg, A in R. exact R.
Qed.

Lemma add_contact_valid_witness :
  Main.add_contact [lit "Ann"; lit "0123456789"] (mkBook [])
  = (Ok (lit "Contact added"),
     mkBook [(lit "Ann", mkRecord (Field_init (lit "Ann"))
                           [Field_init (lit "0123456789")] None)]).
Proof.
  apply (proj1 (@add_contact_valid (mkBook []) (lit "Ann") (lit "0123456789")
                  ltac:(split; repeat constructor))).
  intros [].
Defined.

(** X25: "add" with a number that has not ten digits answers with the
    error of [Phone].  When the book held the name it is unchanged;
    when it did not, the record was filed before the number was
    looked at, and the book is left with a contact that has no
    number. *)
Theorem add_contact_invalid_phone (book : AddressBook) (nm phone : str) :
  ~ ten_digits phone ->
  (~ In nm (keys book) ->
   Main.add_contact [nm; phone] book
   = (Ok (lit "Phone number must contain exactly 10 digits."),
      mkBook (data book ++ [(nm, mkRecord (Field_init nm) [] None)])))
  /\ (In nm (keys book) ->
      Main.add_contact [nm; phone] book
      = (Ok (lit "Phone number must contain exactly 10 digits."), book)).
Proof.
  intros Hp.
  assert (A : forall r, add_phone phone r
                        = (Raise (ValueError "Phone number must contain exactly 10 digits."), r)).
  { intros r. unfold add_phone. unfold_py. rewrite Phone_init_bad by exact Hp.
    reflexivity. }
  pose proof (add_contact_run book nm phone) as R. cbv zeta in R. split.
  - intros Hn. pose proof Hn as Hg. apply dict_get_None in Hg.
    rewrite Hg, A in R. rewrite R. cbn [fst snd].
    rewrite (proj2 (dict_set_keys (data book) nm _) Hn). reflexivity.
  - intros Hin. destruct (dict_get (data book) nm) as [r|] eqn:Hg.
    + rewrite A in R. rewrite R. cbn [fst snd].
      rewrite (@dict_set_same_value _ _ _ Hg), book_eta. reflexivity.
    + apply dict_get_None in Hg. contradiction.
Qed.

Lemma add_contact_invalid_phone_witness :
  Main.add_contact [lit "Ann"; lit "12345"] (mkBook [])
  = (Ok (lit "Phone number must contain exactly 10 digits."),
     mkBook [(lit "Ann", mkRecord (Field_init (lit "Ann")) [] None)]).
Proof.
  apply (proj1 (@add_contact_invalid_phone (mkBook []) (lit "Ann") (lit "12345")
                  ltac:(intros [H _]; discriminate H))).
  intros [].
Defined.



Ltac unfold_main :=
  unfold Main.add_contact, Main.change_contact, Main.show_phone, Main.show_all,
    Main.add_birthday, Main.show_birthday, Main.birthdays, Main.input_error,
    Main.add_contact_def, Main.change_contact_def, Main.show_phone_def,
    Main.show_all_def, Main.add_birthday_def, Main.show_birthday_def,
    Main.unpack_error, Main.hbind, Main.hret, Main.hraise, Main.core,
    Main.on_record.

(** What "change" does with three arguments. *)
Lemma change_contact_run (book : AddressBook) (nm old_phone new_phone : str)
    (r : Record_) :
  dict_get (data book) nm = Some r ->
  Main.change_contact [nm; old_phone; new_phone] book
  = match edit_phone old_phone new_phone r with
    | (Ok _, r') => (Ok (lit "Contact updated"), mkBook (dict_set (data book) nm r'))
    | (Raise (ValueError msg), r') =>
        (Ok (match lit msg with
             | [] => lit "Give me name and phone please."
             | text => text
             end), mkBook (dict_set (data book) nm r'))
    | (Raise e, r') => (Raise e, mkBook (dict_set (data book) nm r'))
    end.
Proof.
  intros Hg. unfold_main. rewrite Hg.
  destruct (edit_phone old_phone new_phone r) as [[u|[m|m]] r']; reflexivity.
Qed.



(** X27: for a name the book does not hold, "change", "add-birthday",
    "phone" and "show-birthday" answer "Contact not found" and leave
    the book as it was. *)
Theorem unknown_contact_not_found (book : AddressBook) (nm : str) :
  ~ In nm (keys book) ->
  (forall old_phone new_phone,
      Main.change_contact [nm; old_phone; new_phone] book
      = (Ok (lit "Contact not found"), book))
  /\ (forall b, Main.add_birthday [nm; b] book
                = (Ok (lit "Contact not found"), book))
  /\ (forall rest, Main.show_phone (nm :: rest) book
                   = (Ok (lit "Contact not found"), book))
  /\ (forall rest, Main.show_birthday (nm :: rest) book
                   = (Ok (lit "Contact not found"), book)).
Proof.
  intros Hn. apply dict_get_None in Hn.
  repeat split; intros; unfold_main; rewrite Hn; reflexivity.
Qed.

Lemma unknown_contact_not_found_witness :
  Main.show_phone [lit "Zed"] (book_of [contact "Ann" "01.02.1990"])
  = (Ok (lit "Contact not found"), book_of [contact "Ann" "01.02.1990"]).
Proof.
  apply (proj1 (proj2 (proj2 (@unknown_contact_not_found
           (book_of [contact "Ann" "01.02.1990"]) (lit "Zed")
           ltac:(simpl; intros [H|[]]; discriminate H)))) []).
Defined.

Lemma lit_unpack_message (expected got : nat) :
  match lit (Main.unpack_message expected got) with
  | [] => lit "Give me name and phone please."
  | text => text
  end = lit (Main.unpack_message expected got).
Proof.
  unfold Main.unpack_message. destruct (Nat.ltb got expected); reflexivity.
Qed.

(** X28: with the wrong number of arguments "add", "change" and
    "add-birthday" answer with the interpreter's message on the
    assignment that failed, "phone" and "show-birthday" without a name
    answer "Enter the argument for the command", and the book is as
    it was. *)
Theorem wrong_arguments (book : AddressBook) (args : list str) :
  (List.length args <> 2%nat ->
   Main.add_contact args book
   = (Ok (lit (Main.unpack_message 2 (List.length args))), book)
   /\ Main.add_birthday args book
      = (Ok (lit (Main.unpack_message 2 (List.length args))), book))
  /\ (List.length args <> 3%nat ->
      Main.change_contact args book
      = (Ok (lit (Main.unpack_message 3 (List.length args))), book))
  /\ Main.show_phone [] book
     = (Ok (lit "Enter the argument for the command"), book)
  /\ Main.show_birthday [] book
     = (Ok (lit "Enter the argument for the command"), book).
Proof.
  split; [|split; [|split; reflexivity]].
  - intros H.
    assert (E : forall (f : str -> str -> Main.H str),
               match args with
               | [nm; x] => f nm x
               | _ => Main.unpack_error 2 args
               end = Main.unpack_error 2 args).
    { intros f. destruct args as [|a [|b [|c l]]]; try reflexivity.
      exfalso. apply H. reflexivity. }
    unfold Main.add_contact, Main.add_birthday, Main.input_error,
      Main.add_contact_def, Main.add_birthday_def.
    rewrite !E. unfold Main.unpack_error, Main.hraise.
    rewrite lit_unpack_message. split; reflexivity.
  - intros H.
    assert (E : forall (f : str -> str -> str -> Main.H str),
               match args with
               | [nm; x; y] => f nm x y
               | _ => Main.unpack_error 3 args
               end = Main.unpack_error 3 args).
    { intros f. destruct args as [|a [|b [|c [|d l]]]]; try reflexivity.
      exfalso. apply H. reflexivity. }
    unfold Main.change_contact, Main.input_error, Main.change_contact_def.
    rewrite E. unfold Main.unpack_error, Main.hraise.
    rewrite lit_unpack_message. reflexivity.
Qed.

Lemma wrong_arguments_witness :
  Main.add_contact [lit "Ann"] (mkBook [])
  = (Ok (lit "not enough values to unpack (expected 2, got 1)"), mkBook []).
Proof.
  apply (proj1 (proj1 (wrong_arguments (mkBook []) [lit "Ann"])
                  ltac:(discriminate))).
Defined.

Lemma list_index_raises (l : list Field) (x : Field) (e : exn) :
  list_index l x = Raise e -> exists msg, e = ValueError msg.
Proof.
  revert e. induction l as [|y l IH]; intros e; simpl.
  - intros H; inversion H; eauto.
  - destruct (Field_eqb y x); [discriminate|]. unfold rbind.
    destruct (list_index l x) eqn:E; [discriminate|].
    intros H; inversion H; subst. apply IH. reflexivity.
Qed.

Lemma list_setitem_raises (l : list Field) (x : Field) :
  forall (i : Z) (e : exn),
    list_setitem l i x = Raise e -> exists msg, e = ValueError msg.
Proof.
  induction l as [|y l IH]; intros i e; simpl.
  - intros H; inversion H; eauto.
  - destruct (i =? 0); [discriminate|]. unfold rbind.
    destruct (list_setitem l (i - 1) x) eqn:E; [discriminate|].
    intros H; inversion H; subst. eapply IH. exact E.
Qed.

Lemma edit_phone_raises (r : Record_) (old_phone new_phone : str) (e : exn) :
  fst (edit_phone old_phone new_phone r) = Raise e ->
  exists msg, e = ValueError msg.
Proof.
  unfold edit_phone, find_phone, Phone_init. unfold_py.
  destruct (find_phone_in (phones r) old_phone) as [p|];
    [|simpl; intros H; inversion H; eauto].
  destruct (isdigit new_phone && (len new_phone =? 10)); simpl;
    [|intros H; inversion H; eauto].
  destruct (list_index (phones r) p) as [i|e1] eqn:E1.
  - destruct (list_setitem (phones r) i (Field_init new_phone)) as [ps|e2] eqn:E2;
      simpl; [discriminate|].
    intros H; inversion H; subst. eapply list_setitem_raises. exact E2.
  - simpl. intros H; inversion H; subst. eapply list_index_raises. exact E1.
Qed.

Lemma add_birthday_raises (r : Record_) (b : str) (e : exn) :
  fst (add_birthday b r) = Raise e -> exists msg, e = ValueError msg.
Proof.
  unfold add_birthday, Birthday_init. unfold_py.
  destruct (strptime_d_m_Y b) as [d|[m|m]] eqn:E; simpl;
    intros H; inversion H; eauto.
  apply strptime_raises in E as [msg E]. discriminate E.
Qed.

Lemma birthday_lines_frame (upcoming : list entry) :
  forall lines book, snd (Main.birthday_lines upcoming lines book) = book.
Proof.
  induction upcoming as [|en rest IH]; intros lines book; simpl; [reflexivity|].
  unfold Main.hbind, Main.item_get, Main.hret, Main.hraise.
  destruct (entry_get en (lit "name")); [|reflexivity].
  destruct (entry_get en (lit "birthday")); [|reflexivity].
  apply IH.
Qed.

(** X29: the handlers behind "add", "change", "add-birthday", "phone",
    "all" and "show-birthday" answer with a text whatever the
    arguments and the book: no exception leaves them.  The three that
    show, and "birthdays", leave the book as it was; "birthdays"
    answers too unless the date arithmetic overflows. *)
Theorem handlers_always_answer (args : list str) (book : AddressBook) :
  (exists reply book', Main.add_contact args book = (Ok reply, book'))
  /\ (exists reply book', Main.change_contact args book = (Ok reply, book'))
  /\ (exists reply book', Main.add_birthday args book = (Ok reply, book'))
  /\ (exists reply, Main.show_phone args book = (Ok reply, book))
  /\ (exists reply, Main.show_all args book = (Ok reply, book))
  /\ (exists reply, Main.show_birthday args book = (Ok reply, book))
  /\ forall clk,
       (exists reply, Main.birthdays clk args book = (Ok reply, book))
       \/ (exists msg, Main.birthdays clk args book = (Raise (OverflowError msg), book)).
Proof.
  split; [|split; [|split; [|split; [|split; [|split]]]]].
  - destruct args as [|a [|b [|c l]]];
      try (unfold_main; rewrite lit_unpack_message; eauto).
    rewrite add_contact_run. eauto.
  - destruct args as [|a [|b [|c [|d l]]]];
      try (unfold_main; rewrite lit_unpack_message; eauto).
    destruct (dict_get (data book) a) as [r|] eqn:Hg.
    + rewrite (@change_contact_run book a b c r Hg).
      destruct (edit_phone b c r) as [[u|e] r'] eqn:E; [eauto|].
      destruct (@edit_phone_raises r b c e) as [msg ->];
        [rewrite E; reflexivity | eauto].
    + unfold_main. rewrite Hg. eauto.
  - destruct args as [|a [|b [|c l]]];
      try (unfold_main; rewrite lit_unpack_message; eauto).
    unfold_main. destruct (dict_get (data book) a) as [r|] eqn:Hg; [|eauto].
    destruct (add_birthday b r) as [[u|e] r'] eqn:E; [eauto|].
    destruct (@add_birthday_raises r b e) as [msg ->];
      [rewrite E; reflexivity | eauto].
  - destruct args as [|a l]; [unfold_main; eauto|].
    unfold_main. destruct (dict_get (data book) a) as [r|] eqn:Hg; [|eauto].
    unfold gets. rewrite (@dict_set_same_value _ _ _ Hg), book_eta.
    destruct (phones r); eauto.
  - unfold_main. unfold gets. eauto.
  - destruct args as [|a l]; [unfold_main; eauto|].
    unfold_main. destruct (dict_get (data book) a) as [r|] eqn:Hg; [|eauto].
    unfold gets. rewrite (@dict_set_same_value _ _ _ Hg), book_eta.
    destruct (birthday r); eauto.
  - intros clk. unfold Main.birthdays, Main.input_error, Main.birthdays_def,
      Main.hbind, Main.core.
    destruct (get_upcoming_birthdays clk book) as [res b1] eqn:E.
    assert (b1 = book).
    { pose proof (f_equal snd E) as F. cbn [snd] in F. rewrite <- F.
      unfold get_upcoming_birthdays. unfold_py.
      destruct (add_days (today clk) 7); [apply upcoming_loop_frame | reflexivity]. }
    subst b1. destruct res as [[|en ens]|[m|m]]; unfold Main.hret; eauto.
    pose proof (birthday_lines_frame (en :: ens) [] book) as F.
    destruct (Main.birthday_lines (en :: ens) [] book) as [[ls|ex] b2].
    + cbn [snd] in F. subst b2. eauto.
    + cbn [snd] in F. subst b2. destruct ex as [[m|m]|m|m|m]; eauto.
Qed.

(** X30: what was added is shown.  When "add-birthday" has answered
    "Birthday added", "show-birthday" for that name answers the text
    that was given; when "add" has answered "Contact added", the book
    holds a record under that name whose numbers are those the name
    had before (none, if it was new) followed by the one added, and
    "phone" for that name answers these numbers joined by "; ". *)
Theorem shown_after_added (book book' : AddressBook) (nm x : str)
    (rest : list str) :
  (Main.add_birthday [nm; x] book = (Ok (lit "Birthday added"), book') ->
   Main.show_birthday (nm :: rest) book' = (Ok x, book'))
  /\ (Main.add_contact [nm; x] book = (Ok (lit "Contact added"), book') ->
      exists r',
        find nm book' = (Ok (Some r'), book')
        /\ map value (phones r')
           = match dict_get (data book) nm with
             | Some r => map value (phones r)
             | None => []
             end ++ [x]
        /\ Main.show_phone (nm :: rest) book'
           = (Ok (join (lit "; ") (map value (phones r'))), book')).
Proof.
  split.
  - unfold_main. destruct (dict_get (data book) nm) as [r|] eqn:Hg;
      [|intros H; inversion H].
    unfold add_birthday, Birthday_init. unfold_py.
    destruct (strptime_d_m_Y x) as [d|[m|m]] eqn:E; simpl;
      intros H; inversion H; subst.
    cbn [data]. rewrite dict_get_set_same. unfold gets.
    cbn [birthday set_birthday]. rewrite dict_set_set.
    unfold set_birthday. reflexivity.
  - rewrite add_contact_run.
    set (r := match dict_get (data book) nm with
              | Some r => r
              | None => mkRecord (Field_init nm) [] None
              end).
    unfold add_phone, Phone_init. unfold_py.
    destruct (isdigit x && (len x =? 10)); simpl; intros H; inversion H; subst.
    exists (set_phones (phones r ++ [Field_init x]) r).
    split; [|split].
    + unfold find. unfold_py. cbn [data]. rewrite dict_get_set_same.
      reflexivity.
    + cbn [phones set_phones]. rewrite map_app. subst r.
      destruct (dict_get (data book) nm); reflexivity.
    + unfold_main. cbn [data]. rewrite dict_get_set_same. unfold gets.
      rewrite dict_set_set. cbn [phones set_phones].
      clear H. destruct (phones r) as [|p ps]; reflexivity.
Qed.

Lemma shown_after_added_witness :
  Main.show_birthday [lit "Ann"]
    (snd (Main.add_birthday [lit "Ann"; lit "5.3.1990"]
            (book_of [contact "Ann" "01.02.1990"])))
  = (Ok (lit "5.3.1990"),
     snd (Main.add_birthday [lit "Ann"; lit "5.3.1990"]
            (book_of [contact "Ann" "01.02.1990"])))
  /\ exists r',
       map value (phones r') = [lit "1111111111"]
       /\ Main.show_phone [lit "Ann"]
            (snd (Main.add_contact [lit "Ann"; lit "1111111111"]
                    (book_of [contact "Ann" "01.02.1990"])))
          = (Ok (join (lit "; ") (map value (phones r'))),
             snd (Main.add_contact [lit "Ann"; lit "1111111111"]
                    (book_of [contact "Ann" "01.02.1990"]))).
Proof.
  split.
  - apply (proj1 (@shown_after_added (book_of [contact "Ann" "01.02.1990"])
                    _ (lit "Ann") (lit "5.3.1990") [])).
    reflexivity.
  - destruct (proj2 (@shown_after_added (book_of [contact "Ann" "01.02.1990"])
                       (snd (Main.add_contact [lit "Ann"; lit "1111111111"]
                               (book_of [contact "Ann" "01.02.1990"])))
                       (lit "Ann") (lit "1111111111") []) eq_refl)
      as (r' & _ & P & S).
    exists r'. split; [exact P | exact S].
Defined.

End Handlers.
